(** * sslyze certificate-info plugin: a shallow embedding

    Source: [sslyze/plugins/certificate_info_plugin.py].

    Python objects become records, Python exceptions become values of
    [PyExn], and code that may raise returns [Raises A] (a sum whose left
    side is the raised exception).  The calls a handshake task makes on
    its SSL connection are recorded in a call history so that [finally]
    blocks can be reasoned about. *)

From Stdlib Require Import Ascii.
From stdpp Require Import gmap strings list pretty.

Local Open Scope string_scope.

(** ** Python exceptions and the error monad *)

Inductive PyExn : Type :=
| AttributeError (msg : string)
| IndexError (msg : string)
| UnboundLocalError (msg : string)
| RuntimeError (msg : string)
| OpenSSLError (msg : string)
| ClientCertificateRequested (msg : string)
| InvalidCertificateChainOrderError (msg : string)
| AnchorCertificateNotInTrustStoreError (msg : string)
| OtherException (class_name msg : string).

(** [exception.__class__.__name__] *)
Definition exn_class_name (e : PyExn) : string :=
  match e with
  | AttributeError _ => "AttributeError"
  | IndexError _ => "IndexError"
  | UnboundLocalError _ => "UnboundLocalError"
  | RuntimeError _ => "RuntimeError"
  | OpenSSLError _ => "OpenSSLError"
  | ClientCertificateRequested _ => "ClientCertificateRequested"
  | InvalidCertificateChainOrderError _ => "InvalidCertificateChainOrderError"
  | AnchorCertificateNotInTrustStoreError _ => "AnchorCertificateNotInTrustStoreError"
  | OtherException c _ => c
  end.

(** [str(exception)] *)
Definition exn_str (e : PyExn) : string :=
  match e with
  | AttributeError m | IndexError m | UnboundLocalError m | RuntimeError m
  | OpenSSLError m | ClientCertificateRequested m
  | InvalidCertificateChainOrderError m
  | AnchorCertificateNotInTrustStoreError m
  | OtherException _ m => m
  end.

Definition Raises (A : Type) : Type := PyExn + A.

Definition ret {A} (a : A) : Raises A := inr a.
Definition raise {A} (e : PyExn) : Raises A := inl e.

Definition bind {A B} (m : Raises A) (k : A -> Raises B) : Raises B :=
  match m with
  | inl e => inl e
  | inr a => k a
  end.

Declare Scope raises_scope.
Delimit Scope raises_scope with raises.
Notation "x <- m ;; k" := (bind m (fun x => k))
  (at level 100, m at next level, right associativity) : raises_scope.

(** [try: body except <exc>: handler] where [handler] decides by itself
    whether the exception is one it catches (and re-raises it if not). *)
Definition try_except {A} (body : Raises A) (handler : PyExn -> Raises A) : Raises A :=
  match body with
  | inl e => handler e
  | inr a => inr a
  end.

(** ** Python string and list helpers *)

(** [needle in hay] on strings: substring test. *)
Fixpoint str_contains (needle hay : string) : bool :=
  String.prefix needle hay ||
  match hay with
  | EmptyString => false
  | String _ rest => str_contains needle rest
  end.

(** Truth value of an optional string ([None] and [''] are false). *)
Definition str_truthy (s : option string) : bool :=
  match s with
  | None => false
  | Some EmptyString => false
  | Some _ => true
  end.

(** [str(b)] for a Python bool. *)
Definition str_of_bool (b : bool) : string := if b then "True" else "False".

(** [l[0]], raising [IndexError] on the empty list. *)
Definition py_first {A} (l : list A) : Raises A :=
  match l !! 0%nat with
  | Some a => ret a
  | None => raise (IndexError "list index out of range")
  end.

(** [x in l], given the comparison Python performs between two elements. *)
Definition py_in {A} (eq : A -> A -> bool) (x : A) (l : list A) : bool :=
  existsb (fun item => eq x item) l.

(** ** Value types *)

(** [TrustStore(path, name, version)] as constructed in [process_task]. *)
Record TrustStore : Type := MkTrustStore {
  path : string;
  name : string;
  version : string
}.

(** The attributes of a (picklable) [Certificate] read by this plugin;
    [signatureAlgorithm] stands for [as_dict['signatureAlgorithm']]. *)
Record Certificate : Type := MkCertificate {
  as_pem : string;
  sha1_fingerprint : string;
  hpkp_pin : string;
  printable_subject_name : string;
  printable_issuer_name : string;
  signatureAlgorithm : string
}.

(** The dictionary produced by [OcspResponse.as_dict()]. *)
Record OcspDict : Type := MkOcspDict {
  responseStatus : string;
  responderID : string
}.

(** A [nassl] OCSP response: its dictionary form and the outcome of
    [verify(verify_locations)]. *)
Record OcspResponse : Type := MkOcspResponse {
  as_dict : OcspDict;
  verify : string -> Raises bool
}.

(** *** PathValidationResult *)

Record PathValidationResult : Type := MkPathValidationResult {
  trust_store : TrustStore;
  verify_string : string;
  is_certificate_trusted : bool
}.

Definition PathValidationResult__init__ (trust_store : TrustStore) (verify_string : string)
  : PathValidationResult :=
  {| trust_store := trust_store;
     verify_string := verify_string;
     is_certificate_trusted := if String.eqb verify_string "ok" then true else false |}.

(** *** PathValidationError *)

Record PathValidationError : Type := MkPathValidationError {
  error_trust_store : TrustStore;
  error_message : string
}.

Definition PathValidationError__init__ (trust_store : TrustStore) (exception : PyExn)
  : PathValidationError :=
  {| error_trust_store := trust_store;
     error_message := exn_class_name exception +:+ " - " +:+ exn_str exception |}.

(** *** Scan command and server information *)

Record CertificateInfoScanCommand : Type := MkScanCommand {
  custom_ca_file : option string;
  should_print_full_certificate : bool
}.

(** A [nassl] X.509 certificate: the picklable [Certificate] that
    [Certificate.from_nassl] builds from it, and the integer returned by
    [matches_hostname(hostname)]. *)
Record X509Certificate : Type := MkX509Certificate {
  from_nassl : Certificate;
  matches_hostname : string -> Z
}.

(** ** The SSL connection of one handshake task *)

(** The methods the task calls on its connection. *)
Inductive ConnCall : Type :=
| set_tlsext_status_ocsp
| connect
| get_tlsext_status_ocsp_resp
| get_peer_cert_chain
| get_certificate_chain_verify_result
| close.

(** What each method does, given the calls made before it on the same
    connection: it returns a value or raises.  [close] returns [None] and
    does not raise. *)
Record SslConnection : Type := MkSslConnection {
  on_set_tlsext_status_ocsp : list ConnCall -> Raises unit;
  on_connect : list ConnCall -> Raises unit;
  on_get_tlsext_status_ocsp_resp : list ConnCall -> Raises (option OcspResponse);
  on_get_peer_cert_chain : list ConnCall -> Raises (list X509Certificate);
  on_get_certificate_chain_verify_result : list ConnCall -> Raises (Z * string)
}.

Record ServerConnectivityInfo : Type := MkServerConnectivityInfo {
  hostname : string;
  tls_server_name_indication : string;
  get_preconfigured_ssl_connection : string -> SslConnection
}.

(** Computations that call the connection: they thread the call history. *)
Definition Conn (A : Type) : Type := list ConnCall -> Raises A * list ConnCall.

Definition conn_ret {A} (a : A) : Conn A := fun h => (inr a, h).
Definition conn_raise {A} (e : PyExn) : Conn A := fun h => (inl e, h).

Definition conn_bind {A B} (m : Conn A) (k : A -> Conn B) : Conn B :=
  fun h =>
    match m h with
    | (inl e, h1) => (inl e, h1)
    | (inr a, h1) => k a h1
    end.

(** One method call: its outcome depends on the history, and the call is
    appended to the history whether it returns or raises. *)
Definition call {A} (c : ConnCall) (outcome : list ConnCall -> Raises A) : Conn A :=
  fun h => (outcome h, (h ++ [c])%list).

Definition conn_try_except {A} (body : Conn A) (handler : PyExn -> Conn A) : Conn A :=
  fun h =>
    match body h with
    | (inl e, h1) => handler e h1
    | (inr a, h1) => (inr a, h1)
    end.

(** [try: body finally: cleanup]: [cleanup] runs on every path; the
    outcome of [body] stands unless [cleanup] itself raises. *)
Definition conn_finally {A} (body : Conn A) (cleanup : Conn unit) : Conn A :=
  fun h =>
    match body h with
    | (r, h1) =>
        match cleanup h1 with
        | (inl e, h2) => (inl e, h2)
        | (inr _, h2) => (r, h2)
        end
    end.

Declare Scope conn_scope.
Delimit Scope conn_scope with conn.
Notation "x <- m ;; k" := (conn_bind m (fun x => k))
  (at level 100, m at next level, right associativity) : conn_scope.

(** *** CertificateInfoPlugin._get_and_verify_certificate_chain *)

Definition retrieve_after_handshake (ssl_connection : SslConnection)
  : Conn (list X509Certificate * string * option OcspResponse) :=
  (ocsp_response <- call get_tlsext_status_ocsp_resp
                      (on_get_tlsext_status_ocsp_resp ssl_connection);;
   x509_cert_chain <- call get_peer_cert_chain (on_get_peer_cert_chain ssl_connection);;
   verify_result <- call get_certificate_chain_verify_result
                      (on_get_certificate_chain_verify_result ssl_connection);;
   conn_ret (x509_cert_chain, snd verify_result, ocsp_response))%conn.

Definition _get_and_verify_certificate_chain
    (server_info : ServerConnectivityInfo) (trust_store : TrustStore)
  : Conn (list X509Certificate * string * option OcspResponse) :=
  let ssl_connection := get_preconfigured_ssl_connection server_info (path trust_store) in
  (_ <- call set_tlsext_status_ocsp (on_set_tlsext_status_ocsp ssl_connection);;
   conn_finally
     (conn_try_except
        (_ <- call connect (on_connect ssl_connection);;
         retrieve_after_handshake ssl_connection)
        (fun e =>
           match e with
           | ClientCertificateRequested _ => retrieve_after_handshake ssl_connection
           | _ => conn_raise e
           end))
     (call close (fun _ => ret tt)))%conn.

(** ** Collaborators defined outside this module

    The plugin relies on the trust-store classes, on the comparison of
    [TrustStore] and [Certificate] objects and on the thread pool.  They
    are taken as given. *)
Record Collaborators : Type := MkCollaborators {
  (** [a == b] on trust stores *)
  TrustStore_eq : TrustStore -> TrustStore -> bool;
  (** the comparison [x in l] performs on certificates *)
  Certificate_eq : Certificate -> Certificate -> bool;
  (** [trust_store.is_extended_validation(certificate)] *)
  is_extended_validation : TrustStore -> Certificate -> bool;
  (** [trust_store.build_verified_certificate_chain(chain)]: the verified
      chain, or one of the two chain-building errors (or any other) raised *)
  build_verified_certificate_chain : TrustStore -> list Certificate -> Raises (list Certificate);
  (** [TrustStoresRepository.get_all()] and [get_main()] *)
  get_all : list TrustStore;
  get_main : TrustStore;
  (** the order in which the thread pool hands back the finished jobs *)
  completion_order :
    list (TrustStore * Raises (list X509Certificate * string * option OcspResponse)) ->
    list (TrustStore * Raises (list X509Certificate * string * option OcspResponse))
}.

(** ** CertificateInfoResult *)

Record CertificateInfoResult : Type := MkCertificateInfoResult {
  server_info : ServerConnectivityInfo;
  scan_command : CertificateInfoScanCommand;
  ocsp_response : option OcspDict;
  is_ocsp_response_trusted : bool;
  certificate_chain : list Certificate;
  is_leaf_certificate_ev : bool;
  verified_certificate_chain : list Certificate;
  is_certificate_chain_order_valid : bool;
  has_anchor_in_certificate_chain : option bool;
  path_validation_result_list : list PathValidationResult;
  path_validation_error_list : list PathValidationError;
  hostname_validation_result : Z;
  has_sha1_in_certificate_chain : option bool
}.

Section Plugin.

Variable env : Collaborators.

Local Open Scope raises_scope.

(** The [try] around the chain builder: the verified chain and the
    chain-order flag after it. *)
Definition try_build_verified_chain (main_trust_store : TrustStore)
    (certificate_chain : list Certificate) : Raises (list Certificate * bool) :=
  try_except
    (chain <- build_verified_certificate_chain env main_trust_store certificate_chain;;
     ret (chain, true))
    (fun e =>
       match e with
       | InvalidCertificateChainOrderError _ => ret ([], false)
       | AnchorCertificateNotInTrustStoreError _ => ret ([], true)
       | _ => raise e
       end).

(** The loop looking for the main store's validation result. *)
Definition find_main_store_verdict (main_trust_store : TrustStore)
    (path_validation_result_list : list PathValidationResult) : bool :=
  fold_left
    (fun is_chain_trusted_by_main_store path_result =>
       if TrustStore_eq env (trust_store path_result) main_trust_store
       then is_certificate_trusted path_result
       else is_chain_trusted_by_main_store)
    path_validation_result_list false.

(** [u"sha1" in cert.as_dict['signatureAlgorithm']] *)
Definition is_sha1_signed (cert : Certificate) : bool :=
  str_contains "sha1" (signatureAlgorithm cert).

(** The [for ... break] loop over [verified_certificate_chain[:-1]],
    started with the flag at [False]. *)
Fixpoint sha1_loop (certs : list Certificate) : bool :=
  match certs with
  | [] => false
  | cert :: rest => if is_sha1_signed cert then true else sha1_loop rest
  end.

Definition CertificateInfoResult__init__
    (server_info : ServerConnectivityInfo)
    (scan_command : CertificateInfoScanCommand)
    (certificate_chain : list X509Certificate)
    (path_validation_result_list : list PathValidationResult)
    (path_validation_error_list : list PathValidationError)
    (ocsp_response : option OcspResponse)
  : Raises CertificateInfoResult :=
  let main_trust_store := get_main env in
  let self_ocsp_response :=
    match ocsp_response with Some o => Some (as_dict o) | None => None end in
  (* print ocsp_response.verify(main_trust_store.path): the standard output
     is not modelled, the evaluation of the printed expression is *)
  _ <- match ocsp_response with
       | Some o => verify o (path main_trust_store)
       | None => raise (AttributeError "'NoneType' object has no attribute 'verify'")
       end;;
  self_is_ocsp_response_trusted <-
    match ocsp_response with
    | Some o => verify o (path main_trust_store)
    | None => ret false
    end;;
  let self_certificate_chain := map from_nassl certificate_chain in
  leaf <- py_first self_certificate_chain;;
  let self_is_leaf_certificate_ev := is_extended_validation env main_trust_store leaf in
  built <- try_build_verified_chain main_trust_store self_certificate_chain;;
  let self_is_certificate_chain_order_valid := snd built in
  let is_chain_trusted_by_main_store :=
    find_main_store_verdict main_trust_store path_validation_result_list in
  let self_verified_certificate_chain :=
    if negb is_chain_trusted_by_main_store then [] else fst built in
  let self_has_anchor_in_certificate_chain :=
    match last self_verified_certificate_chain with
    | Some anchor => Some (py_in (Certificate_eq env) anchor self_certificate_chain)
    | None => None
    end in
  first_cert <- py_first certificate_chain;;
  let self_hostname_validation_result :=
    matches_hostname first_cert (tls_server_name_indication server_info) in
  let self_has_sha1_in_certificate_chain :=
    match self_verified_certificate_chain with
    | [] => None
    | _ :: _ => Some (sha1_loop (removelast self_verified_certificate_chain))
    end in
  ret {| server_info := server_info;
         scan_command := scan_command;
         ocsp_response := self_ocsp_response;
         is_ocsp_response_trusted := self_is_ocsp_response_trusted;
         certificate_chain := self_certificate_chain;
         is_leaf_certificate_ev := self_is_leaf_certificate_ev;
         verified_certificate_chain := self_verified_certificate_chain;
         is_certificate_chain_order_valid := self_is_certificate_chain_order_valid;
         has_anchor_in_certificate_chain := self_has_anchor_in_certificate_chain;
         path_validation_result_list := path_validation_result_list;
         path_validation_error_list := path_validation_error_list;
         hostname_validation_result := self_hostname_validation_result;
         has_sha1_in_certificate_chain := self_has_sha1_in_certificate_chain |}.

(** *** CertificateInfoPlugin.process_task *)

Definition thread_pool_get_result
    (finished : list (TrustStore * Raises (list X509Certificate * string * option OcspResponse)))
  : list (TrustStore * (list X509Certificate * string * option OcspResponse)) :=
  omap (fun job => match snd job with
                   | inr result => Some (fst job, result)
                   | inl _ => None
                   end) finished.

Definition thread_pool_get_error
    (finished : list (TrustStore * Raises (list X509Certificate * string * option OcspResponse)))
  : list (TrustStore * PyExn) :=
  omap (fun job => match snd job with
                   | inl exception => Some (fst job, exception)
                   | inr _ => None
                   end) finished.

(** The first loop of [process_task]: every result overwrites the chain
    and the OCSP response and appends one [PathValidationResult]. *)
Definition collect_results
    (results : list (TrustStore * (list X509Certificate * string * option OcspResponse)))
  : list X509Certificate * list PathValidationResult * option OcspResponse :=
  fold_left
    (fun acc job =>
       match acc, job with
       | (_, path_validation_result_list, _),
         (trust_store, (certificate_chain, validation_result, ocsp_response)) =>
           (certificate_chain,
            (path_validation_result_list
               ++ [PathValidationResult__init__ trust_store validation_result])%list,
            ocsp_response)
       end)
    results ([], [], None).

(** The second loop: one [PathValidationError] per failed job, and the
    last exception seen. *)
Definition collect_errors (errors : list (TrustStore * PyExn))
  : list PathValidationError * option PyExn :=
  fold_left
    (fun acc job =>
       match acc, job with
       | (path_validation_error_list, _), (trust_store, exception) =>
           ((path_validation_error_list
               ++ [PathValidationError__init__ trust_store exception])%list,
            Some exception)
       end)
    errors ([], None).

(** ['{}'.format(last_exception)] *)
Definition format_last_exception (last_exception : option PyExn) : string :=
  match last_exception with
  | Some e => exn_str e
  | None => "None"
  end.

Definition final_trust_store_list (scan_command : CertificateInfoScanCommand)
  : list TrustStore :=
  (get_all env ++
   match custom_ca_file scan_command with
   | Some ca_file =>
       if str_truthy (Some ca_file)
       then [MkTrustStore ca_file "Custom --ca_file" "N/A"]
       else []
   | None => []
   end)%list.

(** One job per trust store, each running the handshake task on a fresh
    connection; the pool hands the finished jobs back in its own order. *)
Definition finished_jobs (server_info : ServerConnectivityInfo)
    (scan_command : CertificateInfoScanCommand)
  : list (TrustStore * Raises (list X509Certificate * string * option OcspResponse)) :=
  completion_order env
    (map (fun trust_store =>
            (trust_store,
             fst (_get_and_verify_certificate_chain server_info trust_store [])))
         (final_trust_store_list scan_command)).

Definition process_task (server_info : ServerConnectivityInfo)
    (scan_command : CertificateInfoScanCommand) : Raises CertificateInfoResult :=
  let stores := final_trust_store_list scan_command in
  let finished := finished_jobs server_info scan_command in
  match collect_results (thread_pool_get_result finished) with
  | (certificate_chain, path_validation_result_list, ocsp_response) =>
      match collect_errors (thread_pool_get_error finished) with
      | (path_validation_error_list, last_exception) =>
          if (length path_validation_error_list =? length stores)%nat
          then raise (RuntimeError ("Could not connect to the server; last error: "
                                      +:+ format_last_exception last_exception))
          else CertificateInfoResult__init__ server_info scan_command certificate_chain
                 path_validation_result_list path_validation_error_list ocsp_response
      end
  end.

(** ** Rendering

    [_format_title] and [_format_field] belong to the base class of the
    result; a rendered line is kept as its title or as its label and value. *)

Inductive TextLine : Type :=
| format_title (title : string)
| format_field (label value : string).

Definition TRUST_FORMAT (store_name store_version : string) : string :=
  store_name +:+ " CA Store (" +:+ store_version +:+ "):".

(** *** as_text: path validation *)

Definition EV_TXT : string := ", Extended Validation".

Definition path_txt (self : CertificateInfoResult) (path_result : PathValidationResult)
  : string :=
  if is_certificate_trusted path_result then
    let ev_txt :=
      if is_leaf_certificate_ev self
         && TrustStore_eq env (get_main env) (trust_store path_result)
      then EV_TXT else "" in
    "OK - Certificate is trusted" +:+ ev_txt
  else
    "FAILED - Certificate is NOT Trusted: " +:+ verify_string path_result.

Definition as_text_path_results (self : CertificateInfoResult) : list TextLine :=
  map (fun path_result =>
         format_field
           (TRUST_FORMAT (name (trust_store path_result)) (version (trust_store path_result)))
           (path_txt self path_result))
      (path_validation_result_list self).

(** The loop over the errors labels every line with [path_result], the
    variable left over from the previous loop. *)
Definition as_text_path_errors (self : CertificateInfoResult) : Raises (list TextLine) :=
  match path_validation_error_list self with
  | [] => ret []
  | _ :: _ =>
      match last (path_validation_result_list self) with
      | None => raise (UnboundLocalError
                         "local variable 'path_result' referenced before assignment")
      | Some path_result =>
          ret (map (fun path_error =>
                      format_field
                        (TRUST_FORMAT (name (trust_store path_result))
                                      (version (trust_store path_result)))
                        ("ERROR: " +:+ error_message path_error))
                   (path_validation_error_list self))
      end
  end.

(** *** as_text: OCSP trust line (the [else] branch, taken when
    [self.ocsp_response] is not [None]) *)

Definition ocsp_trust_txt (self : CertificateInfoResult) : Raises string :=
  try_except
    (ret (if is_ocsp_response_trusted self
          then "OK - Response is trusted"
          else "FAILED - Response is NOT trusted"))
    (fun e =>
       match e with
       | OpenSSLError msg =>
           if str_contains "certificate verify error" msg
           then ret "FAILED - Response is NOT trusted"
           else raise e
       | _ => raise e
       end).

End Plugin.

(** *** as_xml: path validation *)

(** [xml.etree.ElementTree.Element]: tag, attributes, text, children. *)
Local Unset Elimination Schemes.
Inductive Element : Type :=
| MkElement (tag : string) (attrib : gmap string string)
            (text : option string) (children : list Element).
Local Set Elimination Schemes.

Definition element_tag (e : Element) : string :=
  match e with MkElement tag _ _ _ => tag end.
Definition element_attrib (e : Element) : gmap string string :=
  match e with MkElement _ attrib _ _ => attrib end.
Definition element_children (e : Element) : list Element :=
  match e with MkElement _ _ _ children => children end.

(** [str(x)] for an optional Python bool. *)
Definition str_of_option_bool (b : option bool) : string :=
  match b with
  | Some b => str_of_bool b
  | None => "None"
  end.

(** The [certificate] element built inside the verified-chain loop; the
    children generated from [certificate.as_dict] are left out. *)
Definition verified_cert_xml (self : CertificateInfoResult) (certificate : Certificate)
  : Element :=
  MkElement "certificate"
    (<["sha1Fingerprint" := sha1_fingerprint certificate]>
     (<["suppliedServerNameIndication" := tls_server_name_indication (server_info self)]>
      (<["hpkpSha256Pin" := hpkp_pin certificate]> ∅)))
    None
    [MkElement "asPEM" ∅ (Some (as_pem certificate)) []].

(** The attribute dictionary of one [pathValidation] element. *)
Definition path_attrib_xml (self : CertificateInfoResult) (path_result : PathValidationResult)
  : gmap string string :=
  let attrib : gmap string string :=
    <["validationResult" := verify_string path_result]>
    (<["trustStoreVersion" := version (trust_store path_result)]>
     (<["usingTrustStore" := name (trust_store path_result)]> ∅)) in
  if str_contains "Mozilla" (name (trust_store path_result)) then
    if is_leaf_certificate_ev self
    then <["isExtendedValidationCertificate" := str_of_bool (is_leaf_certificate_ev self)]> attrib
    else attrib
  else attrib.

Definition verified_cert_chain_xml (self : CertificateInfoResult)
    (path_result : PathValidationResult) : option Element :=
  if str_contains "Mozilla" (name (trust_store path_result)) then
    match verified_certificate_chain self with
    | [] => None
    | _ :: _ =>
        Some (MkElement "verifiedCertificateChain"
                (<["hasSha1SignedCertificate" :=
                     str_of_option_bool (has_sha1_in_certificate_chain self)]> ∅)
                None
                (map (verified_cert_xml self) (certificate_chain self)))
    end
  else None.

Definition path_valid_xml (self : CertificateInfoResult) (path_result : PathValidationResult)
  : Element :=
  MkElement "pathValidation" (path_attrib_xml self path_result) None
    match verified_cert_chain_xml self path_result with
    | Some chain_xml => [chain_xml]
    | None => []
    end.

Definition as_xml_path_results (self : CertificateInfoResult) : list Element :=
  map (path_valid_xml self) (path_validation_result_list self).

(** As in [as_text], the loop over the errors reads [path_result]. *)
Definition as_xml_path_errors (self : CertificateInfoResult) : Raises (list Element) :=
  match path_validation_error_list self with
  | [] => ret []
  | _ :: _ =>
      match last (path_validation_result_list self) with
      | None => raise (UnboundLocalError
                         "local variable 'path_result' referenced before assignment")
      | Some path_result =>
          ret (map (fun path_error =>
                      MkElement "pathValidation"
                        (<["error" := "ERROR: " +:+ error_message path_error]>
                         (<["trustStoreVersion" := version (trust_store path_result)]>
                          (<["usingTrustStore" := name (trust_store path_result)]> ∅)))
                        None [])
                   (path_validation_error_list self))
      end
  end.

(** ** XML generation

    The module-level helpers [_create_xml_node] and
    [_keyvalue_pair_to_xml], which turn the entries of a parsed
    dictionary into XML nodes. *)

(** The values found in those dictionaries, by Python type: [str], [int],
    [None], [list], [dict] (its items in iteration order), and any other
    type ([unicode], [bool], [long], [float], ...), named. *)
Local Unset Elimination Schemes.
Inductive PyValue : Type :=
| PyStr (s : string)
| PyInt (n : Z)
| PyNone
| PyList (values : list PyValue)
| PyDict (items : list (string * PyValue))
| PyOther (type_name : string).
Local Set Elimination Schemes.

(** The characters [str.strip()] removes: tab, line feed, vertical tab,
    form feed, carriage return and space. *)
Definition is_py_space (c : ascii) : bool :=
  let n := nat_of_ascii c in
  ((9 <=? n)%nat && (n <=? 13)%nat) || (n =? 32)%nat.

(** [c.isdigit()] for a one-character [str]. *)
Definition is_py_digit (c : ascii) : bool :=
  let n := nat_of_ascii c in
  (48 <=? n)%nat && (n <=? 57)%nat.

Fixpoint py_lstrip (s : string) : string :=
  match s with
  | EmptyString => EmptyString
  | String c rest => if is_py_space c then py_lstrip rest else s
  end.

Fixpoint py_rstrip (s : string) : string :=
  match s with
  | EmptyString => EmptyString
  | String c rest =>
      match py_rstrip rest with
      | EmptyString => if is_py_space c then EmptyString else String c EmptyString
      | kept => String c kept
      end
  end.

(** [s.strip()] *)
Definition py_strip (s : string) : string := py_rstrip (py_lstrip s).

(** [s.replace(c, '')] for a one-character [c]. *)
Fixpoint str_remove (c : ascii) (s : string) : string :=
  match s with
  | EmptyString => EmptyString
  | String x rest =>
      if Ascii.eqb x c then str_remove c rest else String x (str_remove c rest)
  end.

(** [s.replace(c, d)] for one-character [c] and [d]. *)
Fixpoint str_subst (c d : ascii) (s : string) : string :=
  match s with
  | EmptyString => EmptyString
  | String x rest => String (if Ascii.eqb x c then d else x) (str_subst c d rest)
  end.

(** The four [replace]/[strip] lines that open [_create_xml_node]. *)
Definition clean_key (key : string) : string :=
  let key := py_strip (str_remove " "%char key) in
  let key := py_strip (str_remove "/"%char key) in
  let key := str_subst "<"%char "_"%char key in
  str_subst ">"%char "_"%char key.

(** The tag given to the node: [key[0]] raises [IndexError] on an empty
    cleaned key, and a leading digit gets the prefix ['oid-']. *)
Definition xml_tag (key : string) : Raises string :=
  match clean_key key with
  | EmptyString => raise (IndexError "string index out of range")
  | String c rest =>
      ret (if is_py_digit c then "oid-" +:+ String c rest else String c rest)
  end.

Definition element_append (parent child : Element) : Element :=
  match parent with
  | MkElement tag attrib text children => MkElement tag attrib text (children ++ [child])%list
  end.

Section XmlNodes.

(** [value.decode("utf-8").strip()]: the decoded and stripped text, or the
    decoding error raised. *)
Variable decode_strip : string -> Raises string.

Local Open Scope raises_scope.

Definition _create_xml_node (key value : string) : Raises Element :=
  tag <- xml_tag key;;
  text <- decode_strip value;;
  ret (MkElement tag ∅ (Some text) []).

Fixpoint _keyvalue_pair_to_xml (key : string) (value : PyValue) : Raises Element :=
  match value with
  | PyStr s => _create_xml_node key s
  | PyInt n => _create_xml_node key (pretty n)
  | PyNone => _create_xml_node key ""
  | PyList values =>
      key_xml <- _create_xml_node key "";;
      (fix entries (values : list PyValue) (key_xml : Element) : Raises Element :=
         match values with
         | [] => ret key_xml
         | val :: rest =>
             child <- _keyvalue_pair_to_xml "listEntry" val;;
             entries rest (element_append key_xml child)
         end) values key_xml
  | PyDict items =>
      key_xml <- _create_xml_node key "";;
      (fix subnodes (items : list (string * PyValue)) (key_xml : Element)
         : Raises Element :=
         match items with
         | [] => ret key_xml
         | (subkey, val) :: rest =>
             child <- _keyvalue_pair_to_xml subkey val;;
             subnodes rest (element_append key_xml child)
         end) items key_xml
  | PyOther _ => raise (OtherException "Exception" "")
  end.

End XmlNodes.

(** ** The rest of the reports *)

(** [sep.join(parts)] *)
Fixpoint str_join (sep : string) (parts : list string) : string :=
  match parts with
  | [] => ""
  | part :: rest =>
      match rest with
      | [] => part
      | _ :: _ => part +:+ sep +:+ str_join sep rest
      end
  end.

(** Truth value of an optional Python bool ([None] is false). *)
Definition option_bool_truthy (b : option bool) : bool :=
  match b with
  | Some true => true
  | _ => false
  end.

Definition COMMAND_TITLE : string := "Certificate Basic Information".

(** [CertificateInfoScanCommand.get_cli_argument()] *)
Definition get_cli_argument : string := "certinfo".

Definition NO_VERIFIED_CHAIN_ERROR_TXT : string :=
  "ERROR - Could not build verified chain (certificate untrusted?)".

Section Reports.

(** [value.decode("utf-8").strip()], as in the section on XML nodes. *)
Variable decode_strip : string -> Raises string.

(** [certificate.as_dict.items()] and [self.ocsp_response.items()], in
    iteration order. *)
Variable Certificate_items : Certificate -> list (string * PyValue).
Variable OcspDict_items : OcspDict -> list (string * PyValue).

(** The three result codes of [matches_hostname], imported from [nassl]. *)
Variable X509_NAME_MISMATCH : Z.
Variable X509_NAME_MATCHES_SAN : Z.
Variable X509_NAME_MATCHES_CN : Z.

Local Open Scope raises_scope.

(** *** as_text: hostname validation *)

Definition HOSTNAME_VALIDATION_TEXT : gmap Z (string -> string) :=
  <[X509_NAME_MISMATCH :=
      fun hostname => "FAILED - Certificate does NOT match " +:+ hostname]>
  (<[X509_NAME_MATCHES_CN :=
       fun hostname => "OK - Common Name matches " +:+ hostname]>
   (<[X509_NAME_MATCHES_SAN :=
        fun hostname => "OK - Subject Alternative Name matches " +:+ hostname]> ∅)).

Definition as_text_hostname_lines (self : CertificateInfoResult) : Raises (list TextLine) :=
  let server_name_indication := tls_server_name_indication (server_info self) in
  let sni_lines :=
    if negb (String.eqb (tls_server_name_indication (server_info self))
                        (hostname (server_info self)))
    then [format_field "SNI enabled with virtual domain:" server_name_indication]
    else [] in
  match HOSTNAME_VALIDATION_TEXT !! hostname_validation_result self with
  | Some text =>
      ret (sni_lines ++ [format_field "Hostname Validation:" (text server_name_indication)])%list
  | None => raise (OtherException "KeyError" (pretty (hostname_validation_result self)))
  end.

(** *** as_text: the received and the verified chain *)

Definition as_text_chain_lines (self : CertificateInfoResult) : list TextLine :=
  let received_txt :=
    str_join " --> " (map printable_subject_name (certificate_chain self)) in
  let verified_chain_txt :=
    match verified_certificate_chain self with
    | [] => NO_VERIFIED_CHAIN_ERROR_TXT
    | _ :: _ =>
        str_join " --> " (map printable_subject_name (verified_certificate_chain self))
    end in
  let chain_with_anchor_txt :=
    match verified_certificate_chain self with
    | [] => NO_VERIFIED_CHAIN_ERROR_TXT
    | _ :: _ =>
        if negb (option_bool_truthy (has_anchor_in_certificate_chain self))
        then "OK - Anchor certificate not sent"
        else "WARNING - Received certificate chain contains the anchor certificate"
    end in
  let chain_order_txt :=
    if is_certificate_chain_order_valid self
    then "OK - Order is valid"
    else "FAILED - Certificate chain out of order!" in
  let sha1_text :=
    match verified_certificate_chain self with
    | [] => NO_VERIFIED_CHAIN_ERROR_TXT
    | _ :: _ =>
        if negb (option_bool_truthy (has_sha1_in_certificate_chain self))
        then "OK - No SHA1-signed certificate in the verified certificate chain"
        else "INSECURE - SHA1-signed certificate in the verified certificate chain"
    end in
  [format_field "Received Chain:" received_txt;
   format_field "Verified Chain w/ Mozilla Store:" verified_chain_txt;
   format_field "Received Chain Contains Anchor:" chain_with_anchor_txt;
   format_field "Received Chain Order:" chain_order_txt;
   format_field "Verified Chain contains SHA1:" sha1_text].

(** *** as_xml *)

(** [for key, value in items: node.append(_keyvalue_pair_to_xml(key, value))] *)
Fixpoint append_items (items : list (string * PyValue)) (node : Element) : Raises Element :=
  match items with
  | [] => ret node
  | (key, value) :: rest =>
      child <- _keyvalue_pair_to_xml decode_strip key value;;
      append_items rest (element_append node child)
  end.

(** One [certificate] element of the received chain. *)
Definition received_cert_xml (self : CertificateInfoResult) (index : nat)
    (certificate : Certificate) : Raises Element :=
  append_items (Certificate_items certificate)
    (MkElement "certificate"
       (<["sha1Fingerprint" := sha1_fingerprint certificate]>
        (<["position" := if (index =? 0)%nat then "leaf" else "intermediate"]>
         (<["suppliedServerNameIndication" := tls_server_name_indication (server_info self)]>
          (<["hpkpSha256Pin" := hpkp_pin certificate]> ∅))))
       None
       [MkElement "asPEM" ∅ (Some (as_pem certificate)) []]).

(** The loop over [enumerate(self.certificate_chain, start=0)]. *)
Fixpoint received_cert_xml_list (self : CertificateInfoResult) (index : nat)
    (chain : list Certificate) : Raises (list Element) :=
  match chain with
  | [] => ret []
  | certificate :: rest =>
      cert_xml <- received_cert_xml self index certificate;;
      cert_xml_list <- received_cert_xml_list self (S index) rest;;
      ret (cert_xml :: cert_xml_list)
  end.

Definition cert_chain_attrs (self : CertificateInfoResult) : gmap string string :=
  let attrs : gmap string string :=
    <["isChainOrderValid" := str_of_bool (is_certificate_chain_order_valid self)]> ∅ in
  match verified_certificate_chain self with
  | [] => attrs
  | _ :: _ =>
      <["containsAnchorCertificate" :=
          if negb (option_bool_truthy (has_anchor_in_certificate_chain self))
          then str_of_bool false else str_of_bool true]> attrs
  end.

Definition host_validation_xml (self : CertificateInfoResult) : Element :=
  let is_hostname_valid :=
    if (hostname_validation_result self =? X509_NAME_MISMATCH)%Z then "False" else "True" in
  MkElement "hostnameValidation"
    (<["certificateMatchesServerHostname" := is_hostname_valid]>
     (<["serverHostname" := tls_server_name_indication (server_info self)]> ∅))
    None [].

(** The [certificate] elements put under [verifiedCertificateChain]: one
    per certificate of [self.certificate_chain]. *)
Fixpoint verified_cert_xml_list (self : CertificateInfoResult) (chain : list Certificate)
  : Raises (list Element) :=
  match chain with
  | [] => ret []
  | certificate :: rest =>
      cert_xml <- append_items (Certificate_items certificate)
                    (verified_cert_xml self certificate);;
      cert_xml_list <- verified_cert_xml_list self rest;;
      ret (cert_xml :: cert_xml_list)
  end.

(** One [pathValidation] element of a validation result, with the
    children generated from the certificates' dictionaries. *)
Definition path_validation_xml (self : CertificateInfoResult)
    (path_result : PathValidationResult) : Raises Element :=
  if str_contains "Mozilla" (name (trust_store path_result)) then
    match verified_certificate_chain self with
    | [] => ret (MkElement "pathValidation" (path_attrib_xml self path_result) None [])
    | _ :: _ =>
        certs <- verified_cert_xml_list self (certificate_chain self);;
        ret (MkElement "pathValidation" (path_attrib_xml self path_result) None
               [MkElement "verifiedCertificateChain"
                  (<["hasSha1SignedCertificate" :=
                       str_of_option_bool (has_sha1_in_certificate_chain self)]> ∅)
                  None certs])
    end
  else ret (MkElement "pathValidation" (path_attrib_xml self path_result) None []).

Fixpoint path_validation_xml_list (self : CertificateInfoResult)
    (results : list PathValidationResult) : Raises (list Element) :=
  match results with
  | [] => ret []
  | path_result :: rest =>
      path_valid <- path_validation_xml self path_result;;
      others <- path_validation_xml_list self rest;;
      ret (path_valid :: others)
  end.

Definition ocsp_stapling_xml (self : CertificateInfoResult) : Raises Element :=
  let attrib : gmap string string :=
    <["isSupported" := match ocsp_response self with None => "False" | Some _ => "True" end]> ∅ in
  match ocsp_response self with
  | None => ret (MkElement "ocspStapling" attrib None [])
  | Some response =>
      match OcspDict_items response with
      | [] => ret (MkElement "ocspStapling" attrib None [])
      | _ :: _ =>
          ocsp_resp_xml <-
            append_items (OcspDict_items response)
              (MkElement "ocspResponse"
                 (<["isTrustedByMozillaCAStore" :=
                      str_of_bool (is_ocsp_response_trusted self)]> ∅)
                 None []);;
          ret (MkElement "ocspStapling" attrib None [ocsp_resp_xml])
      end
  end.

Definition as_xml (self : CertificateInfoResult) : Raises Element :=
  cert_xml_list <- received_cert_xml_list self 0 (certificate_chain self);;
  let cert_chain_xml :=
    MkElement "receivedCertificateChain" (cert_chain_attrs self) None cert_xml_list in
  path_results <- path_validation_xml_list self (path_validation_result_list self);;
  path_errors <- as_xml_path_errors self;;
  let trust_validation_xml :=
    MkElement "certificateValidation" ∅ None
      (host_validation_xml self :: path_results ++ path_errors)%list in
  ocsp_xml <- ocsp_stapling_xml self;;
  ret (MkElement get_cli_argument (<["title" := COMMAND_TITLE]> ∅) None
         [cert_chain_xml; trust_validation_xml; ocsp_xml]).

End Reports.

(** ** Predicates used to state properties of the XML nodes *)

(** Every character of [s] satisfies [P]. *)
Fixpoint str_forall (P : ascii -> bool) (s : string) : bool :=
  match s with
  | EmptyString => true
  | String c rest => P c && str_forall P rest
  end.

(** [c] does not occur in [s]. *)
Definition no_char (c : ascii) (s : string) : bool :=
  str_forall (fun x => negb (Ascii.eqb x c)) s.

(** A tag that is not empty, does not start with a digit and has no
    space, slash or angle bracket. *)
Definition tag_well_formed (tag : string) : bool :=
  match tag with
  | EmptyString => false
  | String c _ => negb (is_py_digit c)
  end
  && no_char " " tag && no_char "/" tag && no_char "<" tag && no_char ">" tag.

(** A key made only of white space and slashes. *)
Definition blank_key (key : string) : bool :=
  str_forall (fun c => is_py_space c || Ascii.eqb c "/") key.

(** Every tag of the tree satisfies [P]. *)
Fixpoint element_forall (P : string -> bool) (e : Element) : bool :=
  match e with
  | MkElement tag _ _ children => P tag && forallb (element_forall P) children
  end.

(** No value of an unsupported type occurs in [value], at any depth. *)
Fixpoint py_supported (value : PyValue) : bool :=
  match value with
  | PyStr _ | PyInt _ | PyNone => true
  | PyList values => forallb py_supported values
  | PyDict items => forallb (fun item => py_supported (snd item)) items
  | PyOther _ => false
  end.

(** ** A concrete setting

    Two trust stores, a three-certificate hierarchy and servers with
    various behaviours, used to evaluate the definitions above. *)
Module Demo.

Definition mozilla : TrustStore := MkTrustStore "mozilla.pem" "Mozilla NSS" "02/2016".
Definition microsoft : TrustStore := MkTrustStore "microsoft.pem" "Microsoft" "02/2016".
(** A supplementary store whose name also mentions Mozilla. *)
Definition mozilla_legacy : TrustStore :=
  MkTrustStore "mozilla_legacy.pem" "Mozilla (legacy)" "01/2010".

Definition store_eqb (a b : TrustStore) : bool :=
  String.eqb (path a) (path b) && String.eqb (name a) (name b)
  && String.eqb (version a) (version b).

Definition leaf : Certificate :=
  MkCertificate "PEM-leaf" "fp-leaf" "pin-leaf" "www.example.com" "Example CA"
                "sha256WithRSAEncryption".
Definition intermediate : Certificate :=
  MkCertificate "PEM-intermediate" "fp-intermediate" "pin-intermediate" "Example CA"
                "Example Root" "sha256WithRSAEncryption".
Definition root : Certificate :=
  MkCertificate "PEM-root" "fp-root" "pin-root" "Example Root" "Example Root"
                "sha1WithRSAEncryption".

Definition cert_eqb (a b : Certificate) : bool :=
  String.eqb (sha1_fingerprint a) (sha1_fingerprint b).

(** The anchors of each store. *)
Definition anchors (store : TrustStore) : list Certificate :=
  if store_eqb store mozilla then [root] else [].

(** Received order is valid when every certificate is issued by the next. *)
Fixpoint order_valid (chain : list Certificate) : bool :=
  match chain with
  | c :: (next :: _) as rest =>
      String.eqb (printable_issuer_name c) (printable_subject_name next) && order_valid rest
  | _ => true
  end.

(** Modelled from the spec: the chain builder of the trust-store class
    (section 4.2).  A chain whose received order is not leaf-to-root
    signals the order fault; otherwise the anchor issuing the last
    certificate is appended, and a missing anchor signals the
    anchor-not-found fault. *)
Definition build (store : TrustStore) (chain : list Certificate) : Raises (list Certificate) :=
  if negb (order_valid chain) then raise (InvalidCertificateChainOrderError "")
  else
    match last chain with
    | None => raise (AnchorCertificateNotInTrustStoreError "")
    | Some top =>
        match find (fun a => String.eqb (printable_subject_name a) (printable_issuer_name top))
                   (anchors store) with
        | Some anchor =>
            if cert_eqb anchor top then ret chain else ret (chain ++ [anchor])%list
        | None => raise (AnchorCertificateNotInTrustStoreError "")
        end
    end.

Definition env : Collaborators :=
  {| TrustStore_eq := store_eqb;
     Certificate_eq := cert_eqb;
     is_extended_validation := fun store cert => store_eqb store mozilla && cert_eqb cert leaf;
     build_verified_certificate_chain := build;
     get_all := [mozilla; microsoft];
     get_main := mozilla;
     completion_order := fun finished => finished |}.

(** The same catalogue with [mozilla_legacy] as its supplementary store. *)
Definition env_legacy : Collaborators :=
  {| TrustStore_eq := store_eqb;
     Certificate_eq := cert_eqb;
     is_extended_validation := fun store cert => store_eqb store mozilla && cert_eqb cert leaf;
     build_verified_certificate_chain := build;
     get_all := [mozilla; mozilla_legacy];
     get_main := mozilla;
     completion_order := fun finished => finished |}.

Definition x509 (c : Certificate) : X509Certificate :=
  MkX509Certificate c (fun _ => 1%Z).

Definition staple : OcspResponse :=
  MkOcspResponse (MkOcspDict "successful" "Example Responder") (fun _ => ret true).

(** A staple whose signer is not trusted: [verify] raises. *)
Definition untrusted_staple : OcspResponse :=
  MkOcspResponse (MkOcspDict "successful" "Unknown Responder")
                 (fun _ => raise (OpenSSLError "certificate verify error")).

(** The verdict OpenSSL reports for the demo chain, per anchor file. *)
Definition verdict (verify_locations : string) : string :=
  if String.eqb verify_locations "mozilla.pem" then "ok"
  else if String.eqb verify_locations "mozilla_legacy.pem" then "ok"
  else "unable to get local issuer certificate".

(** A connection on which every call succeeds. *)
Definition connection (chain : list Certificate) (ocsp : option OcspResponse)
    (verify_locations : string) : SslConnection :=
  {| on_set_tlsext_status_ocsp := fun _ => ret tt;
     on_connect := fun _ => ret tt;
     on_get_tlsext_status_ocsp_resp := fun _ => ret ocsp;
     on_get_peer_cert_chain := fun _ => ret (map x509 chain);
     on_get_certificate_chain_verify_result := fun _ => ret (0%Z, verdict verify_locations) |}.

(** The same server asking for a client certificate during the handshake. *)
Definition connection_client_cert (chain : list Certificate) (ocsp : option OcspResponse)
    (verify_locations : string) : SslConnection :=
  {| on_set_tlsext_status_ocsp := fun _ => ret tt;
     on_connect := fun _ => raise (ClientCertificateRequested "");
     on_get_tlsext_status_ocsp_resp := fun _ => ret ocsp;
     on_get_peer_cert_chain := fun _ => ret (map x509 chain);
     on_get_certificate_chain_verify_result := fun _ => ret (0%Z, verdict verify_locations) |}.

(** An unreachable server. *)
Definition connection_refused (verify_locations : string) : SslConnection :=
  {| on_set_tlsext_status_ocsp := fun _ => ret tt;
     on_connect := fun _ => raise (OtherException "error" "Connection refused");
     on_get_tlsext_status_ocsp_resp := fun _ => raise (OtherException "error" "not connected");
     on_get_peer_cert_chain := fun _ => raise (OtherException "error" "not connected");
     on_get_certificate_chain_verify_result :=
       fun _ => raise (OtherException "error" "not connected") |}.

Definition server (chain : list Certificate) (ocsp : option OcspResponse)
  : ServerConnectivityInfo :=
  MkServerConnectivityInfo "www.example.com" "www.example.com" (connection chain ocsp).

Definition command : CertificateInfoScanCommand := MkScanCommand None false.

End Demo.

(** ** A concrete setting for the reports *)
Module DemoReport.

(** Decoding of printable ASCII text. *)
Definition decode_strip (value : string) : Raises string := ret (py_strip value).

Definition subject_alternative_name : PyValue :=
  PyDict [("DNS", PyList [PyStr "www.example.com"; PyStr "example.com"])].

Definition extensions : PyValue :=
  PyDict [("X509v3 Subject Alternative Name", subject_alternative_name);
          ("2.5.29.15", PyStr " Digital Signature ")].

Definition certificate_items (certificate : Certificate) : list (string * PyValue) :=
  [("version", PyInt 2);
   ("signatureAlgorithm", PyStr (signatureAlgorithm certificate));
   ("extensions", extensions)].

Definition ocsp_items (response : OcspDict) : list (string * PyValue) :=
  [("responseStatus", PyStr (responseStatus response));
   ("responderID", PyStr (responderID response))].

Definition X509_NAME_MISMATCH : Z := 0.
Definition X509_NAME_MATCHES_SAN : Z := 1.
Definition X509_NAME_MATCHES_CN : Z := 2.

(** A catalogue without any trust store. *)
Definition env_no_store : Collaborators :=
  {| TrustStore_eq := Demo.store_eqb;
     Certificate_eq := Demo.cert_eqb;
     is_extended_validation := fun _ _ => false;
     build_verified_certificate_chain := Demo.build;
     get_all := [];
     get_main := Demo.mozilla;
     completion_order := fun finished => finished |}.

(** A server that refuses the connection made with the second store. *)
Definition server_partly_down : ServerConnectivityInfo :=
  MkServerConnectivityInfo "www.example.com" "www.example.com"
    (fun verify_locations =>
       if String.eqb verify_locations "microsoft.pem"
       then Demo.connection_refused verify_locations
       else Demo.connection [Demo.leaf; Demo.intermediate] (Some Demo.staple)
              verify_locations).

Definition server_down : ServerConnectivityInfo :=
  MkServerConnectivityInfo "www.example.com" "www.example.com" Demo.connection_refused.

Definition server_up : ServerConnectivityInfo :=
  Demo.server [Demo.leaf; Demo.intermediate] (Some Demo.staple).

(** A leaf whose hostname check answers a code outside the table. *)
Definition x509_odd_hostname_code : X509Certificate :=
  MkX509Certificate Demo.leaf (fun _ => 7%Z).

End DemoReport.

(** ** Further concrete inputs *)
Module DemoMore.

(** A leaf signed with ECDSA over SHA-1, under the name OpenSSL gives to
    that signature algorithm. *)
Definition leaf_ecdsa_sha1 : Certificate :=
  MkCertificate "PEM-leaf-ecdsa" "fp-leaf-ecdsa" "pin-leaf-ecdsa" "www.example.com"
                "Example CA" "ecdsa-with-SHA1".

(** A connection on which requesting the OCSP staple already raises. *)
Definition connection_setup_fails (verify_locations : string) : SslConnection :=
  {| on_set_tlsext_status_ocsp := fun _ => raise (OpenSSLError "set_tlsext_status_type failed");
     on_connect := fun _ => ret tt;
     on_get_tlsext_status_ocsp_resp := fun _ => ret None;
     on_get_peer_cert_chain := fun _ => ret [];
     on_get_certificate_chain_verify_result := fun _ => ret (0%Z, "ok") |}.

Definition server_setup_fails : ServerConnectivityInfo :=
  MkServerConnectivityInfo "www.example.com" "www.example.com" connection_setup_fails.

End DemoMore.

(** * Properties *)

(** ** PathValidationResult *)

(** C8: the trusted flag of a per-store validation result is true exactly
    when the verify string is the literal ["ok"]; every other string,
    however close, gives false. *)
Theorem is_certificate_trusted_iff_ok (store : TrustStore) (verify_str : string) :
  is_certificate_trusted (PathValidationResult__init__ store verify_str) = true
  <-> verify_str = "ok".
Proof.
  unfold PathValidationResult__init__; simpl.
  destruct (String.eqb_spec verify_str "ok") as [Heq | Hne]; split; intros H;
    congruence.
Qed.

Example trusted_ok : is_certificate_trusted (PathValidationResult__init__ Demo.mozilla "ok") = true.
Proof. reflexivity. Qed.

Example untrusted_OK_uppercase :
  is_certificate_trusted (PathValidationResult__init__ Demo.mozilla "OK") = false.
Proof. reflexivity. Qed.

(** ** Construction of the result *)

Section InitFacts.

Variable env : Collaborators.

Lemma bind_inr {A B} (m : Raises A) (k : A -> Raises B) (b : B) :
  bind m k = inr b -> exists a, m = inr a /\ k a = inr b.
Proof. destruct m as [e | a]; simpl; [discriminate | eauto]. Qed.

Lemma py_first_inr {A} (l : list A) (a : A) :
  py_first l = inr a -> exists rest, l = a :: rest.
Proof.
  destruct l as [| x rest]; unfold py_first; simpl; [discriminate |].
  intros [= ->]. eauto.
Qed.

(** What a successful construction tells about its inputs and fields. *)
Lemma CertificateInfoResult__init___inv
    si sc chain results errors (ocsp : option OcspResponse) (self : CertificateInfoResult) :
  CertificateInfoResult__init__ env si sc chain results errors ocsp = inr self ->
  exists staple verdict built,
    ocsp = Some staple
    /\ verify staple (path (get_main env)) = inr verdict
    /\ try_build_verified_chain env (get_main env) (map from_nassl chain) = inr built
    /\ chain <> []
    /\ ocsp_response self = Some (as_dict staple)
    /\ is_ocsp_response_trusted self = verdict
    /\ certificate_chain self = map from_nassl chain
    /\ is_certificate_chain_order_valid self = snd built
    /\ verified_certificate_chain self =
         (if negb (find_main_store_verdict env (get_main env) results) then [] else fst built)
    /\ has_anchor_in_certificate_chain self =
         match last (verified_certificate_chain self) with
         | Some anchor =>
             Some (py_in (Certificate_eq env) anchor (certificate_chain self))
         | None => None
         end
    /\ has_sha1_in_certificate_chain self =
         match verified_certificate_chain self with
         | [] => None
         | _ :: _ => Some (sha1_loop (removelast (verified_certificate_chain self)))
         end
    /\ path_validation_result_list self = results
    /\ path_validation_error_list self = errors.
Proof.
  unfold CertificateInfoResult__init__. intros H.
  destruct ocsp as [staple |]; [| discriminate].
  apply bind_inr in H as (printed & Hprinted & H).
  apply bind_inr in H as (verdict & Hverdict & H).
  apply bind_inr in H as (first_parsed & Hparsed & H).
  apply bind_inr in H as (built & Hbuilt & H).
  apply bind_inr in H as (first_cert & Hfirst & H).
  apply py_first_inr in Hfirst as (rest & ->).
  injection H as <-. simpl.
  exists staple, verdict, built. repeat split; auto.
Qed.

(** Construction succeeds as soon as a staple was captured and verifies
    without raising, the chain has a leaf, and the chain builder raises
    nothing but its two chain-building errors. *)
Lemma CertificateInfoResult__init___returns
    si sc leaf rest results errors (staple : OcspResponse) verdict built :
  verify staple (path (get_main env)) = inr verdict ->
  try_build_verified_chain env (get_main env) (map from_nassl (leaf :: rest)) = inr built ->
  exists self,
    CertificateInfoResult__init__ env si sc (leaf :: rest) results errors (Some staple)
    = inr self.
Proof.
  intros Hverify Hbuilt. unfold CertificateInfoResult__init__.
  rewrite Hverify. cbn [bind]. rewrite Hbuilt. cbn. eauto.
Qed.

(** The lookup loop answers [False] when every entry recorded for the
    main store is untrusted. *)
Lemma find_main_store_verdict_false (main : TrustStore) (results : list PathValidationResult) :
  (forall path_result,
     path_result ∈ results ->
     TrustStore_eq env (trust_store path_result) main = true ->
     is_certificate_trusted path_result = false) ->
  find_main_store_verdict env main results = false.
Proof.
  unfold find_main_store_verdict.
  assert (Hgen : forall acc,
    acc = false ->
    (forall path_result,
       path_result ∈ results ->
       TrustStore_eq env (trust_store path_result) main = true ->
       is_certificate_trusted path_result = false) ->
    fold_left
      (fun found path_result =>
         if TrustStore_eq env (trust_store path_result) main
         then is_certificate_trusted path_result else found)
      results acc = false).
  { induction results as [| pr rest IH]; intros acc Hacc Hall; simpl; [exact Hacc |].
    apply IH.
    - destruct (TrustStore_eq env (trust_store pr) main) eqn:Heq; [| exact Hacc].
      apply Hall; [left | exact Heq].
    - intros p Hp. apply Hall. right. exact Hp. }
  intros Hall. apply Hgen; [reflexivity | exact Hall].
Qed.

(** The [for ... break] loop computes an existential. *)
Lemma sha1_loop_true (certs : list Certificate) :
  sha1_loop certs = true <-> exists cert, cert ∈ certs /\ is_sha1_signed cert = true.
Proof.
  induction certs as [| c rest IH]; simpl.
  - split; [discriminate |]. intros (cert & Hin & _). inversion Hin.
  - destruct (is_sha1_signed c) eqn:Hc.
    + split; [| reflexivity]. intros _. exists c. split; [left | exact Hc].
    + rewrite IH. split.
      * intros (cert & Hin & Hs). exists cert. split; [right; exact Hin | exact Hs].
      * intros (cert & Hin & Hs). inversion Hin; subst; [congruence |]. eauto.
Qed.

Lemma py_in_true {A} (eq : A -> A -> bool) (x : A) (l : list A) :
  py_in eq x l = true <-> exists item, item ∈ l /\ eq x item = true.
Proof.
  unfold py_in. rewrite existsb_exists. split.
  - intros (item & Hin & Heq). exists item. split; [| exact Heq].
    apply list_elem_of_In. exact Hin.
  - intros (item & Hin & Heq). exists item. split; [| exact Heq].
    apply list_elem_of_In. exact Hin.
Qed.

End InitFacts.

(** ** The verified chain and the main store's verdict *)

(** C1: when no validation result recorded for the main trust store
    carries the verify string ["ok"] (the main store's verdict is not
    trusted, or the main store has no result at all), the constructed
    result has an empty verified chain, whatever the chain builder
    returned. *)
Theorem untrusted_main_verdict_discards_verified_chain
    (env : Collaborators) si sc chain (outcomes : list (TrustStore * string)) errors ocsp
    (self : CertificateInfoResult) :
  CertificateInfoResult__init__ env si sc chain
    (map (fun outcome => PathValidationResult__init__ (fst outcome) (snd outcome)) outcomes)
    errors ocsp = inr self ->
  (forall store verify_str,
     (store, verify_str) ∈ outcomes ->
     TrustStore_eq env store (get_main env) = true ->
     verify_str <> "ok") ->
  verified_certificate_chain self = [].
Proof.
  intros Hinit Huntrusted.
  apply CertificateInfoResult__init___inv in Hinit
    as (staple & verdict & built & _ & _ & _ & _ & _ & _ & _ & _ & Hverified & _).
  rewrite Hverified, find_main_store_verdict_false; [reflexivity |].
  intros path_result Hin Hmain.
  apply list_elem_of_fmap in Hin as ([store verify_str] & -> & Hin).
  simpl in *.
  destruct (String.eqb_spec verify_str "ok") as [-> | _]; [| reflexivity].
  exfalso. exact (Huntrusted store "ok" Hin Hmain eq_refl).
Qed.

(** An expired certificate: the builder links leaf, intermediate and root,
    the main store reports the expiry, and the verified chain is empty. *)
Lemma untrusted_main_verdict_discards_verified_chain_witness :
  Demo.build Demo.mozilla [Demo.leaf; Demo.intermediate]
  = inr [Demo.leaf; Demo.intermediate; Demo.root]
  /\ exists self,
       CertificateInfoResult__init__ Demo.env
         (Demo.server [Demo.leaf; Demo.intermediate] (Some Demo.staple)) Demo.command
         [Demo.x509 Demo.leaf; Demo.x509 Demo.intermediate]
         (map (fun outcome => PathValidationResult__init__ (fst outcome) (snd outcome))
              [(Demo.mozilla, "certificate has expired"); (Demo.microsoft, "ok")])
         [] (Some Demo.staple) = inr self
       /\ verified_certificate_chain self = [].
Proof.
  split; [reflexivity |].
  eexists. split; [vm_compute; reflexivity |].
  apply (untrusted_main_verdict_discards_verified_chain Demo.env
           (Demo.server [Demo.leaf; Demo.intermediate] (Some Demo.staple)) Demo.command
           [Demo.x509 Demo.leaf; Demo.x509 Demo.intermediate]
           [(Demo.mozilla, "certificate has expired"); (Demo.microsoft, "ok")]
           [] (Some Demo.staple)).
  - vm_compute. reflexivity.
  - intros store verify_str Hin Hmain.
    apply list_elem_of_In in Hin. simpl in Hin.
    destruct Hin as [[= <- <-] | [[= <- <-] | []]]; [discriminate |].
    vm_compute in Hmain. discriminate.
Defined.

(** C10: when the list of validation results has no entry for the main
    trust store (for instance because its handshake ended in an error),
    the lookup keeps its default [False] and the constructed result has an
    empty verified chain, whatever the chain builder returned. *)
Theorem missing_main_store_result_discards_verified_chain
    (env : Collaborators) si sc chain (results : list PathValidationResult) errors ocsp
    (self : CertificateInfoResult) :
  CertificateInfoResult__init__ env si sc chain results errors ocsp = inr self ->
  (forall path_result,
     path_result ∈ results ->
     TrustStore_eq env (trust_store path_result) (get_main env) = false) ->
  find_main_store_verdict env (get_main env) results = false
  /\ verified_certificate_chain self = [].
Proof.
  intros Hinit Habsent.
  assert (Hverdict : find_main_store_verdict env (get_main env) results = false).
  { apply find_main_store_verdict_false. intros path_result Hin Hmain.
    rewrite (Habsent path_result Hin) in Hmain. discriminate. }
  split; [exact Hverdict |].
  apply CertificateInfoResult__init___inv in Hinit
    as (staple & verdict & built & _ & _ & _ & _ & _ & _ & _ & _ & Hverified & _).
  rewrite Hverified, Hverdict. reflexivity.
Qed.

(** The main store's handshake failed; only the supplementary store
    reported, and it trusts the chain. *)
Lemma missing_main_store_result_discards_verified_chain_witness :
  Demo.build Demo.mozilla [Demo.leaf; Demo.intermediate]
  = inr [Demo.leaf; Demo.intermediate; Demo.root]
  /\ exists self,
       CertificateInfoResult__init__ Demo.env
         (Demo.server [Demo.leaf; Demo.intermediate] (Some Demo.staple)) Demo.command
         [Demo.x509 Demo.leaf; Demo.x509 Demo.intermediate]
         [PathValidationResult__init__ Demo.microsoft "ok"]
         [PathValidationError__init__ Demo.mozilla (OtherException "timeout" "timed out")]
         (Some Demo.staple) = inr self
       /\ verified_certificate_chain self = [].
Proof.
  split; [reflexivity |].
  eexists. split; [vm_compute; reflexivity |].
  apply (missing_main_store_result_discards_verified_chain Demo.env
           (Demo.server [Demo.leaf; Demo.intermediate] (Some Demo.staple)) Demo.command
           [Demo.x509 Demo.leaf; Demo.x509 Demo.intermediate]
           [PathValidationResult__init__ Demo.microsoft "ok"]
           [PathValidationError__init__ Demo.mozilla (OtherException "timeout" "timed out")]
           (Some Demo.staple)).
  - vm_compute. reflexivity.
  - intros path_result Hin.
    apply list_elem_of_In in Hin. simpl in Hin.
    destruct Hin as [<- | []]. reflexivity.
Defined.

(** ** Flags derived from the verified chain *)

(** The shape of the SHA-1 flag of a constructed result: [None] when the
    verified chain is empty; otherwise a boolean that is true exactly when
    some certificate of the verified chain other than its last one (the
    anchor) passes the code's test [is_sha1_signed], a case-sensitive
    search for "sha1" in the name of the signature algorithm.  A verified
    chain in which only the anchor passes the test gets [Some false]. *)
Theorem has_sha1_in_certificate_chain_spec
    (env : Collaborators) si sc chain results errors ocsp (self : CertificateInfoResult) :
  CertificateInfoResult__init__ env si sc chain results errors ocsp = inr self ->
  (verified_certificate_chain self = [] -> has_sha1_in_certificate_chain self = None)
  /\ (verified_certificate_chain self <> [] ->
      exists flag,
        has_sha1_in_certificate_chain self = Some flag
        /\ (flag = true <->
            exists cert,
              cert ∈ removelast (verified_certificate_chain self)
              /\ is_sha1_signed cert = true))
  /\ (forall front anchor,
        verified_certificate_chain self = (front ++ [anchor])%list ->
        (forall cert, cert ∈ front -> is_sha1_signed cert = false) ->
        has_sha1_in_certificate_chain self = Some false).
Proof.
  intros Hinit.
  apply CertificateInfoResult__init___inv in Hinit
    as (staple & verdict & built & _ & _ & _ & _ & _ & _ & _ & _ & _ & _ & Hsha1 & _).
  repeat split.
  - intros Hnil. rewrite Hsha1, Hnil. reflexivity.
  - intros Hne. rewrite Hsha1.
    destruct (verified_certificate_chain self) as [| c rest] eqn:Hv; [congruence |].
    eexists. split; [reflexivity |]. apply sha1_loop_true.
  - intros front anchor Hv Hfront. rewrite Hsha1, Hv.
    rewrite removelast_last.
    destruct (front ++ [anchor])%list eqn:Happ;
      [destruct front; discriminate |].
    f_equal. apply not_true_is_false. intros Hloop.
    apply sha1_loop_true in Hloop as (cert & Hin & Hs).
    rewrite (Hfront cert Hin) in Hs. discriminate.
Qed.

(** The verified chain leaf, intermediate, root, where only the root is
    SHA-1 signed. *)
Lemma has_sha1_in_certificate_chain_spec_witness :
  is_sha1_signed Demo.root = true
  /\ exists self,
       CertificateInfoResult__init__ Demo.env
         (Demo.server [Demo.leaf; Demo.intermediate] (Some Demo.staple)) Demo.command
         [Demo.x509 Demo.leaf; Demo.x509 Demo.intermediate]
         [PathValidationResult__init__ Demo.mozilla "ok"] [] (Some Demo.staple) = inr self
       /\ verified_certificate_chain self = [Demo.leaf; Demo.intermediate; Demo.root]
       /\ has_sha1_in_certificate_chain self = Some false.
Proof.
  split; [reflexivity |].
  eexists. split; [vm_compute; reflexivity |]. split; [reflexivity |].
  apply (has_sha1_in_certificate_chain_spec Demo.env
           (Demo.server [Demo.leaf; Demo.intermediate] (Some Demo.staple)) Demo.command
           [Demo.x509 Demo.leaf; Demo.x509 Demo.intermediate]
           [PathValidationResult__init__ Demo.mozilla "ok"] [] (Some Demo.staple) _
           eq_refl)
    with (front := [Demo.leaf; Demo.intermediate]) (anchor := Demo.root).
  - reflexivity.
  - intros cert Hin. apply list_elem_of_In in Hin. simpl in Hin.
    destruct Hin as [<- | [<- | []]]; reflexivity.
Defined.

(** C5, on the code: the leaf of the verified chain is signed with
    ECDSA over SHA-1, which OpenSSL names "ecdsa-with-SHA1"; the test for
    "sha1" is case sensitive and does not match, so the constructed result
    reports no SHA-1 signature in the chain. *)
Theorem sha1_flag_misses_ecdsa_with_sha1 :
  signatureAlgorithm DemoMore.leaf_ecdsa_sha1 = "ecdsa-with-SHA1"
  /\ is_sha1_signed DemoMore.leaf_ecdsa_sha1 = false
  /\ exists self,
       CertificateInfoResult__init__ Demo.env
         (Demo.server [DemoMore.leaf_ecdsa_sha1; Demo.intermediate] (Some Demo.staple))
         Demo.command
         [Demo.x509 DemoMore.leaf_ecdsa_sha1; Demo.x509 Demo.intermediate]
         [PathValidationResult__init__ Demo.mozilla "ok"] [] (Some Demo.staple) = inr self
       /\ verified_certificate_chain self
          = [DemoMore.leaf_ecdsa_sha1; Demo.intermediate; Demo.root]
       /\ has_sha1_in_certificate_chain self = Some false.
Proof.
  split; [reflexivity |]. split; [reflexivity |].
  eexists. split; [vm_compute; reflexivity |]. split; reflexivity.
Qed.

(** C6: the anchor flag of a constructed result is [None] when the
    verified chain is empty; otherwise it holds a boolean that is true
    exactly when the last certificate of the verified chain (the anchor)
    compares equal to some certificate of the chain received from the
    server. *)
Theorem has_anchor_in_certificate_chain_spec
    (env : Collaborators) si sc chain results errors ocsp (self : CertificateInfoResult) :
  CertificateInfoResult__init__ env si sc chain results errors ocsp = inr self ->
  certificate_chain self = map from_nassl chain
  /\ (verified_certificate_chain self = [] -> has_anchor_in_certificate_chain self = None)
  /\ (forall anchor,
        last (verified_certificate_chain self) = Some anchor ->
        exists flag,
          has_anchor_in_certificate_chain self = Some flag
          /\ (flag = true <->
              exists cert,
                cert ∈ map from_nassl chain /\ Certificate_eq env anchor cert = true)).
Proof.
  intros Hinit.
  apply CertificateInfoResult__init___inv in Hinit
    as (staple & verdict & built & _ & _ & _ & _ & _ & _ & Hchain & _ & _ & Hanchor & _).
  repeat split.
  - exact Hchain.
  - intros Hnil. rewrite Hanchor, Hnil. reflexivity.
  - intros anchor Hlast. rewrite Hanchor, Hlast, Hchain.
    eexists. split; [reflexivity |]. apply py_in_true.
Qed.

(** The server also sent the root: the anchor is found in the received
    chain. *)
Lemma has_anchor_in_certificate_chain_spec_witness :
  exists self,
    CertificateInfoResult__init__ Demo.env
      (Demo.server [Demo.leaf; Demo.intermediate; Demo.root] (Some Demo.staple)) Demo.command
      [Demo.x509 Demo.leaf; Demo.x509 Demo.intermediate; Demo.x509 Demo.root]
      [PathValidationResult__init__ Demo.mozilla "ok"] [] (Some Demo.staple) = inr self
    /\ last (verified_certificate_chain self) = Some Demo.root
    /\ exists flag,
         has_anchor_in_certificate_chain self = Some flag
         /\ (flag = true <->
             exists cert,
               cert ∈ map from_nassl
                        [Demo.x509 Demo.leaf; Demo.x509 Demo.intermediate; Demo.x509 Demo.root]
               /\ Certificate_eq Demo.env Demo.root cert = true).
Proof.
  eexists. split; [vm_compute; reflexivity |]. split; [reflexivity |].
  apply (has_anchor_in_certificate_chain_spec Demo.env
           (Demo.server [Demo.leaf; Demo.intermediate; Demo.root] (Some Demo.staple))
           Demo.command
           [Demo.x509 Demo.leaf; Demo.x509 Demo.intermediate; Demo.x509 Demo.root]
           [PathValidationResult__init__ Demo.mozilla "ok"] [] (Some Demo.staple) _
           eq_refl).
  reflexivity.
Defined.

Example anchor_sent_flag :
  bind (CertificateInfoResult__init__ Demo.env
          (Demo.server [Demo.leaf; Demo.intermediate; Demo.root] (Some Demo.staple))
          Demo.command
          [Demo.x509 Demo.leaf; Demo.x509 Demo.intermediate; Demo.x509 Demo.root]
          [PathValidationResult__init__ Demo.mozilla "ok"] [] (Some Demo.staple))
       (fun self => ret (has_anchor_in_certificate_chain self))
  = inr (Some true).
Proof. reflexivity. Qed.

Example anchor_not_sent_flag :
  bind (CertificateInfoResult__init__ Demo.env
          (Demo.server [Demo.leaf; Demo.intermediate] (Some Demo.staple)) Demo.command
          [Demo.x509 Demo.leaf; Demo.x509 Demo.intermediate]
          [PathValidationResult__init__ Demo.mozilla "ok"] [] (Some Demo.staple))
       (fun self => ret (has_anchor_in_certificate_chain self))
  = inr (Some false).
Proof. reflexivity. Qed.

(** ** A chain received out of order *)

(** C3, as stated, fails: the server sends intermediate and leaf swapped,
    the same certificates in the right order link up to the root, and the
    main store's verdict is ["ok"]; the chain builder signals the order
    fault, the chain-order flag is false, but the verified chain is empty
    and both derived flags are [None]. *)
Lemma out_of_order_chain_counterexample :
  Demo.build Demo.mozilla [Demo.intermediate; Demo.leaf]
  = inl (InvalidCertificateChainOrderError "")
  /\ Demo.build Demo.mozilla [Demo.leaf; Demo.intermediate]
     = inr [Demo.leaf; Demo.intermediate; Demo.root]
  /\ exists self,
       process_task Demo.env
         (Demo.server [Demo.intermediate; Demo.leaf] (Some Demo.staple)) Demo.command
       = inr self
       /\ find_main_store_verdict Demo.env Demo.mozilla (path_validation_result_list self)
          = true
       /\ is_certificate_chain_order_valid self = false
       /\ verified_certificate_chain self = []
       /\ has_anchor_in_certificate_chain self = None
       /\ has_sha1_in_certificate_chain self = None
       /\ ~ (verified_certificate_chain self <> []
             /\ has_anchor_in_certificate_chain self <> None
             /\ has_sha1_in_certificate_chain self <> None).
Proof.
  split; [reflexivity |]. split; [reflexivity |].
  eexists. split; [vm_compute; reflexivity |].
  repeat split. intros [Hne _]. apply Hne. reflexivity.
Qed.

(** C3, amended: when the chain builder signals the order fault, the
    constructed result has the chain-order flag false, an empty verified
    chain, and both the anchor flag and the SHA-1 flag at [None], whatever
    the main store's verdict. *)
Theorem order_fault_leaves_no_verified_chain
    (env : Collaborators) si sc chain results errors ocsp (self : CertificateInfoResult) msg :
  build_verified_certificate_chain env (get_main env) (map from_nassl chain)
  = inl (InvalidCertificateChainOrderError msg) ->
  CertificateInfoResult__init__ env si sc chain results errors ocsp = inr self ->
  is_certificate_chain_order_valid self = false
  /\ verified_certificate_chain self = []
  /\ has_anchor_in_certificate_chain self = None
  /\ has_sha1_in_certificate_chain self = None.
Proof.
  intros Hfault Hinit.
  apply CertificateInfoResult__init___inv in Hinit
    as (staple & verdict & built & _ & _ & Hbuilt & _ & _ & _ & _ & Horder & Hverified
        & Hanchor & Hsha1 & _).
  unfold try_build_verified_chain in Hbuilt. rewrite Hfault in Hbuilt.
  simpl in Hbuilt. injection Hbuilt as <-. simpl in *.
  assert (Hnil : verified_certificate_chain self = []).
  { rewrite Hverified. destruct (negb _); reflexivity. }
  rewrite Hanchor, Hsha1, Hnil. auto.
Qed.

Lemma order_fault_leaves_no_verified_chain_witness :
  exists self,
    CertificateInfoResult__init__ Demo.env
      (Demo.server [Demo.intermediate; Demo.leaf] (Some Demo.staple)) Demo.command
      [Demo.x509 Demo.intermediate; Demo.x509 Demo.leaf]
      [PathValidationResult__init__ Demo.mozilla "ok"] [] (Some Demo.staple) = inr self
    /\ is_certificate_chain_order_valid self = false
    /\ verified_certificate_chain self = []
    /\ has_anchor_in_certificate_chain self = None
    /\ has_sha1_in_certificate_chain self = None.
Proof.
  eexists. split; [vm_compute; reflexivity |].
  apply (order_fault_leaves_no_verified_chain Demo.env
           (Demo.server [Demo.intermediate; Demo.leaf] (Some Demo.staple)) Demo.command
           [Demo.x509 Demo.intermediate; Demo.x509 Demo.leaf]
           [PathValidationResult__init__ Demo.mozilla "ok"] [] (Some Demo.staple) _ "").
  - reflexivity.
  - vm_compute. reflexivity.
Defined.

(** ** The handshake task *)

Ltac case_call_outcomes :=
  repeat match goal with
         | |- context [match ?outcome with inl _ => _ | inr _ => _ end] =>
             destruct outcome eqn:?; simpl
         | |- context [match ?e with ClientCertificateRequested _ => _ | _ => _ end] =>
             destruct e; simpl
         end.




Example handshake_refused_still_closes :
  _get_and_verify_certificate_chain
    (MkServerConnectivityInfo "www.example.com" "www.example.com" Demo.connection_refused)
    Demo.mozilla []
  = (inl (OtherException "error" "Connection refused"),
     [set_tlsext_status_ocsp; connect; close]).
Proof. reflexivity. Qed.

(** ** Extended Validation in the reports *)


(** The same through [process_task], with a catalogue holding the two
    stores. *)
Example ev_attribute_through_process_task :
  exists self entry,
    process_task Demo.env_legacy
      (Demo.server [Demo.leaf; Demo.intermediate] (Some Demo.staple)) Demo.command
    = inr self
    /\ entry ∈ path_validation_result_list self
    /\ trust_store entry = Demo.mozilla_legacy
    /\ TrustStore_eq Demo.env_legacy (get_main Demo.env_legacy) (trust_store entry) = false
    /\ is_leaf_certificate_ev self = true
    /\ path_attrib_xml self entry !! "isExtendedValidationCertificate" = Some "True"
    /\ path_txt Demo.env_legacy self entry = "OK - Certificate is trusted".
Proof.
  eexists. exists (PathValidationResult__init__ Demo.mozilla_legacy "ok").
  split; [vm_compute; reflexivity |].
  split; [apply list_elem_of_In; simpl; auto |].
  repeat split; vm_compute; reflexivity.
Qed.

(** Where each report puts the EV marker: in the human-readable report
    an entry carries it exactly when it is trusted, the leaf is EV and its
    store compares equal to the main store; in the machine-readable report
    an entry carries the EV attribute exactly when the leaf is EV and the
    name of its store contains "Mozilla". *)
Theorem ev_marker_placement
    (env : Collaborators) (self : CertificateInfoResult) (path_result : PathValidationResult) :
  (path_txt env self path_result = "OK - Certificate is trusted" +:+ EV_TXT
   <-> is_certificate_trusted path_result = true
       /\ is_leaf_certificate_ev self = true
       /\ TrustStore_eq env (get_main env) (trust_store path_result) = true)
  /\ path_attrib_xml self path_result !! "isExtendedValidationCertificate"
     = (if is_leaf_certificate_ev self
           && str_contains "Mozilla" (name (trust_store path_result))
        then Some "True" else None).
Proof.
  split.
  - unfold path_txt.
    destruct (is_certificate_trusted path_result), (is_leaf_certificate_ev self),
      (TrustStore_eq env (get_main env) (trust_store path_result));
      simpl; split; intros H; try discriminate; intuition discriminate.
  - unfold path_attrib_xml.
    destruct (str_contains "Mozilla" (name (trust_store path_result))),
      (is_leaf_certificate_ev self); simpl;
      rewrite ?lookup_insert_eq, ?lookup_insert_ne, ?lookup_empty by done; reflexivity.
Qed.

(** When the main store is the only one whose name contains "Mozilla",
    the two reports agree: the EV attribute is only on the main store's
    element. *)
Lemma ev_attribute_only_on_main_store_when_names_tell
    (env : Collaborators) (self : CertificateInfoResult) (path_result : PathValidationResult) :
  (str_contains "Mozilla" (name (trust_store path_result)) = true ->
   TrustStore_eq env (get_main env) (trust_store path_result) = true) ->
  is_Some (path_attrib_xml self path_result !! "isExtendedValidationCertificate") ->
  TrustStore_eq env (get_main env) (trust_store path_result) = true.
Proof.
  intros Hnames [value Hvalue]. apply Hnames.
  unfold path_attrib_xml in Hvalue.
  destruct (str_contains "Mozilla" (name (trust_store path_result))); [reflexivity |].
  rewrite !lookup_insert_ne, lookup_empty in Hvalue by done. discriminate.
Qed.

(** ** The orchestrator *)

Section Orchestrator.

Variable env : Collaborators.

(** Each job handed to the thread pool comes back exactly once. *)
Hypothesis completion_order_perm : forall jobs, completion_order env jobs ≡ₚ jobs.

Lemma collect_results_list results :
  snd (fst (collect_results results))
  = map (fun job => PathValidationResult__init__ (fst job) (snd (fst (snd job)))) results.
Proof.
  unfold collect_results.
  induction results as [| job rest IH] using rev_ind; [reflexivity |].
  rewrite fold_left_app, map_app. simpl.
  destruct (fold_left _ rest _) as [[chain0 list0] ocsp0].
  destruct job as [store [[chain verify_str] ocsp]]. simpl in *.
  rewrite IH. reflexivity.
Qed.

Lemma collect_errors_list errors :
  collect_errors errors
  = (map (fun job => PathValidationError__init__ (fst job) (snd job)) errors,
     snd <$> last errors).
Proof.
  unfold collect_errors.
  induction errors as [| job rest IH] using rev_ind; [reflexivity |].
  rewrite fold_left_app, map_app, last_snoc. simpl.
  rewrite IH. destruct job as [store exception]. reflexivity.
Qed.

Lemma thread_pool_partition
    (finished : list (TrustStore * Raises (list X509Certificate * string * option OcspResponse))) :
  (map fst (thread_pool_get_result finished) ++ map fst (thread_pool_get_error finished))%list
  ≡ₚ map fst finished.
Proof.
  unfold thread_pool_get_result, thread_pool_get_error.
  induction finished as [| [store [e | result]] rest IH]; simpl.
  - reflexivity.
  - rewrite <- IH. symmetry. apply Permutation_middle.
  - rewrite <- IH. reflexivity.
Qed.

Lemma thread_pool_all_failed
    (finished : list (TrustStore * Raises (list X509Certificate * string * option OcspResponse))) :
  (forall job, job ∈ finished -> exists e, snd job = inl e) ->
  thread_pool_get_result finished = []
  /\ length (thread_pool_get_error finished) = length finished.
Proof.
  unfold thread_pool_get_result, thread_pool_get_error.
  induction finished as [| [store outcome] rest IH]; intros Hall; [split; reflexivity |].
  destruct (Hall (store, outcome)) as [e He]; [left |]. simpl in He. subst outcome.
  destruct IH as [IH1 IH2]; [intros job Hin; apply Hall; right; exact Hin |].
  split.
  - change (omap ?f ((store, inl e) :: rest)) with (omap f rest). exact IH1.
  - simpl. f_equal. exact IH2.
Qed.

(** When every handshake task raises, [process_task] raises the
    connectivity error carrying the last error handed back by the pool. *)
Lemma process_task_all_failed server_info scan_command :
  (forall store,
     store ∈ final_trust_store_list env scan_command ->
     exists e, fst (_get_and_verify_certificate_chain server_info store []) = inl e) ->
  process_task env server_info scan_command
  = inl (RuntimeError
           ("Could not connect to the server; last error: "
              +:+ format_last_exception
                    (snd <$> last (thread_pool_get_error
                                     (finished_jobs env server_info scan_command))))).
Proof.
  intros Hall. unfold process_task.
  destruct (thread_pool_all_failed (finished_jobs env server_info scan_command)) as [Hres Hlen].
  { intros job Hin. unfold finished_jobs in Hin.
    rewrite completion_order_perm in Hin.
    apply list_elem_of_fmap in Hin as (store & -> & Hstore). simpl.
    apply Hall. exact Hstore. }
  destruct (collect_results _) as [[chain results] ocsp].
  assert (Hjobs : length (finished_jobs env server_info scan_command)
                  = length (final_trust_store_list env scan_command)).
  { unfold finished_jobs.
    rewrite (Permutation_length (completion_order_perm _)), length_map. reflexivity. }
  rewrite collect_errors_list, length_map, Hlen, Hjobs, Nat.eqb_refl.
  reflexivity.
Qed.

(** When [process_task] returns a result, the stores of its validation
    results and of its validation errors together are the stores
    attempted, each once. *)
Lemma process_task_one_outcome_per_store server_info scan_command self :
  process_task env server_info scan_command = inr self ->
  (map trust_store (path_validation_result_list self)
     ++ map error_trust_store (path_validation_error_list self))%list
  ≡ₚ final_trust_store_list env scan_command.
Proof.
  unfold process_task.
  pose proof (collect_results_list
                (thread_pool_get_result (finished_jobs env server_info scan_command))) as Hres.
  destruct (collect_results _) as [[chain results] ocsp]. simpl in Hres.
  rewrite collect_errors_list.
  destruct (_ =? _)%nat; [discriminate |].
  intros Hinit.
  apply CertificateInfoResult__init___inv in Hinit
    as (staple & verdict & built & _ & _ & _ & _ & _ & _ & _ & _ & _ & _ & _ & -> & ->).
  rewrite Hres, !map_map. simpl.
  change (fun x : TrustStore * (list X509Certificate * string * option OcspResponse) => fst x)
    with (@fst TrustStore (list X509Certificate * string * option OcspResponse)).
  change (fun x : TrustStore * PyExn => fst x) with (@fst TrustStore PyExn).
  rewrite thread_pool_partition. unfold finished_jobs.
  rewrite completion_order_perm, map_map. simpl. rewrite map_id. reflexivity.
Qed.

End Orchestrator.

(** ** The OCSP verdict *)

Section OcspFacts.

Variable env : Collaborators.

(** Without a staple the constructor stops at the [print] statement. *)
Lemma CertificateInfoResult__init___without_staple si sc chain results errors :
  CertificateInfoResult__init__ env si sc chain results errors None
  = inl (AttributeError "'NoneType' object has no attribute 'verify'").
Proof. reflexivity. Qed.

(** An error raised by [verify] leaves the constructor as it is. *)
Lemma CertificateInfoResult__init___verify_error si sc chain results errors staple e :
  verify staple (path (get_main env)) = inl e ->
  CertificateInfoResult__init__ env si sc chain results errors (Some staple) = inl e.
Proof. intros H. unfold CertificateInfoResult__init__. rewrite H. reflexivity. Qed.

(** A constructed result records what [verify] returned for the captured
    staple against the main store's anchor file. *)
Lemma CertificateInfoResult__init___ocsp_verdict si sc chain results errors ocsp self :
  CertificateInfoResult__init__ env si sc chain results errors ocsp = inr self ->
  exists staple,
    ocsp = Some staple
    /\ ocsp_response self = Some (as_dict staple)
    /\ verify staple (path (get_main env)) = inr (is_ocsp_response_trusted self).
Proof.
  intros Hinit.
  apply CertificateInfoResult__init___inv in Hinit
    as (staple & verdict & built & -> & Hverify & _ & _ & Hdict & <- & _).
  eauto.
Qed.

(** The handler around the OCSP trust line of [as_text] is never entered. *)
Lemma ocsp_trust_txt_returns (self : CertificateInfoResult) :
  ocsp_trust_txt self
  = inr (if is_ocsp_response_trusted self
         then "OK - Response is trusted"
         else "FAILED - Response is NOT trusted").
Proof. reflexivity. Qed.

End OcspFacts.

(** C2, on the code: with no staple captured the constructor raises
    [AttributeError] instead of building a result whose OCSP verdict is
    null, and with a staple whose verification raises the trust
    verification error the constructor raises that error instead of
    recording "not trusted". *)
Theorem ocsp_verdict_failing_inputs :
  CertificateInfoResult__init__ Demo.env
    (Demo.server [Demo.leaf; Demo.intermediate] None) Demo.command
    [Demo.x509 Demo.leaf; Demo.x509 Demo.intermediate]
    [PathValidationResult__init__ Demo.mozilla "ok"] [] None
  = inl (AttributeError "'NoneType' object has no attribute 'verify'")
  /\ CertificateInfoResult__init__ Demo.env
       (Demo.server [Demo.leaf; Demo.intermediate] (Some Demo.untrusted_staple)) Demo.command
       [Demo.x509 Demo.leaf; Demo.x509 Demo.intermediate]
       [PathValidationResult__init__ Demo.mozilla "ok"] [] (Some Demo.untrusted_staple)
     = inl (OpenSSLError "certificate verify error").
Proof. split; reflexivity. Qed.

(** C4, on the code: both handshakes succeed against a server that sends
    no OCSP staple, yet [process_task] raises [AttributeError] and returns
    no result. *)
Theorem process_task_without_staple_raises :
  fst (_get_and_verify_certificate_chain
         (Demo.server [Demo.leaf; Demo.intermediate] None) Demo.mozilla [])
  = inr ([Demo.x509 Demo.leaf; Demo.x509 Demo.intermediate], "ok", None)
  /\ fst (_get_and_verify_certificate_chain
            (Demo.server [Demo.leaf; Demo.intermediate] None) Demo.microsoft [])
     = inr ([Demo.x509 Demo.leaf; Demo.x509 Demo.intermediate],
            "unable to get local issuer certificate", None)
  /\ final_trust_store_list Demo.env Demo.command = [Demo.mozilla; Demo.microsoft]
  /\ process_task Demo.env (Demo.server [Demo.leaf; Demo.intermediate] None) Demo.command
     = inl (AttributeError "'NoneType' object has no attribute 'verify'").
Proof. repeat split; vm_compute; reflexivity. Qed.

Example process_task_with_staple_returns :
  bind (process_task Demo.env
          (Demo.server [Demo.leaf; Demo.intermediate] (Some Demo.staple)) Demo.command)
       (fun self => ret (map verify_string (path_validation_result_list self),
                         path_validation_error_list self,
                         verified_certificate_chain self))
  = inr (["ok"; "unable to get local issuer certificate"], [],
         [Demo.leaf; Demo.intermediate; Demo.root]).
Proof. reflexivity. Qed.

Example process_task_unreachable_server :
  process_task Demo.env
    (MkServerConnectivityInfo "www.example.com" "www.example.com" Demo.connection_refused)
    Demo.command
  = inl (RuntimeError "Could not connect to the server; last error: Connection refused").
Proof. reflexivity. Qed.

(** * Further properties *)

(** ** The XML node helpers *)

Section StringFacts.

Variable P : ascii -> bool.

Lemma str_forall_remove c s :
  str_forall P s = true -> str_forall P (str_remove c s) = true.
Proof.
  induction s as [| x rest IH]; simpl; [reflexivity |].
  intros [Hx Hrest]%andb_prop. destruct (Ascii.eqb x c); simpl; [auto |].
  rewrite Hx. auto.
Qed.

Lemma str_forall_lstrip s :
  str_forall P s = true -> str_forall P (py_lstrip s) = true.
Proof.
  induction s as [| x rest IH]; simpl; [reflexivity |].
  intros H. destruct (is_py_space x); [| exact H].
  apply andb_prop in H as [_ H]. auto.
Qed.

Lemma str_forall_rstrip s :
  str_forall P s = true -> str_forall P (py_rstrip s) = true.
Proof.
  induction s as [| x rest IH]; simpl; [reflexivity |].
  intros [Hx Hrest]%andb_prop. specialize (IH Hrest).
  destruct (py_rstrip rest) as [| y kept].
  - destruct (is_py_space x); simpl; [reflexivity |]. rewrite Hx. reflexivity.
  - simpl in *. rewrite Hx. exact IH.
Qed.

Lemma str_forall_strip s :
  str_forall P s = true -> str_forall P (py_strip s) = true.
Proof. intros H. apply str_forall_rstrip, str_forall_lstrip, H. Qed.

Lemma str_forall_subst c d s :
  P d = true -> str_forall P s = true -> str_forall P (str_subst c d s) = true.
Proof.
  intros Hd. induction s as [| x rest IH]; simpl; [reflexivity |].
  intros [Hx Hrest]%andb_prop. rewrite (IH Hrest).
  destruct (Ascii.eqb x c); rewrite ?Hd, ?Hx; reflexivity.
Qed.

(** Stripping only drops white space. *)
Hypothesis P_space : forall c, is_py_space c = true -> P c = true.

Lemma str_forall_lstrip_inv s :
  str_forall P (py_lstrip s) = true -> str_forall P s = true.
Proof.
  induction s as [| x rest IH]; simpl; [reflexivity |].
  destruct (is_py_space x) eqn:Hx; [| auto].
  intros H. rewrite (P_space x Hx), (IH H). reflexivity.
Qed.

Lemma str_forall_rstrip_inv s :
  str_forall P (py_rstrip s) = true -> str_forall P s = true.
Proof.
  induction s as [| x rest IH]; simpl; [reflexivity |].
  destruct (py_rstrip rest) as [| y kept].
  - destruct (is_py_space x) eqn:Hx; simpl.
    + intros _. rewrite (P_space x Hx), IH; reflexivity.
    + intros [Hpx _]%andb_prop. rewrite Hpx, IH; reflexivity.
  - simpl. intros [Hpx Hk]%andb_prop. rewrite Hpx, IH; [reflexivity | exact Hk].
Qed.

Lemma str_forall_strip_inv s :
  str_forall P (py_strip s) = true -> str_forall P s = true.
Proof. intros H. apply str_forall_lstrip_inv, str_forall_rstrip_inv, H. Qed.

End StringFacts.

Lemma no_char_remove c s : no_char c (str_remove c s) = true.
Proof.
  unfold no_char. induction s as [| x rest IH]; simpl; [reflexivity |].
  destruct (Ascii.eqb x c) eqn:Hx; simpl; [exact IH |]. rewrite Hx, IH. reflexivity.
Qed.

Lemma no_char_subst c d s : c <> d -> no_char c (str_subst c d s) = true.
Proof.
  intros Hne. unfold no_char. induction s as [| x rest IH]; simpl; [reflexivity |].
  rewrite IH, andb_true_r.
  destruct (Ascii.eqb x c) eqn:Hx; [| rewrite Hx; reflexivity].
  apply negb_true_iff, Ascii.eqb_neq. congruence.
Qed.

Lemma py_rstrip_empty s : py_rstrip s = "" <-> str_forall is_py_space s = true.
Proof.
  induction s as [| x rest IH]; simpl; [tauto |].
  destruct (py_rstrip rest) as [| y kept].
  - destruct (is_py_space x); simpl; [| split; discriminate].
    split; intros _; [apply IH |]; reflexivity.
  - split; [discriminate |]. intros [_ H]%andb_prop.
    apply IH in H. discriminate.
Qed.

Lemma py_strip_empty s : py_strip s = "" <-> str_forall is_py_space s = true.
Proof.
  unfold py_strip. rewrite py_rstrip_empty. split.
  - apply str_forall_lstrip_inv. auto.
  - apply str_forall_lstrip.
Qed.

Lemma str_subst_empty c d s : str_subst c d s = "" <-> s = "".
Proof. destruct s; simpl; split; congruence. Qed.

Lemma str_forall_remove_inv (P : ascii -> bool) c s :
  P c = true -> str_forall P (str_remove c s) = true -> str_forall P s = true.
Proof.
  intros Hc. induction s as [| x rest IH]; simpl; [reflexivity |].
  destruct (Ascii.eqb_spec x c) as [-> | Hne]; simpl.
  - intros H. rewrite Hc, IH; auto.
  - intros [Hx H]%andb_prop. rewrite Hx, IH; auto.
Qed.

Lemma str_forall_space_remove_slash s :
  str_forall is_py_space (str_remove "/" s) = true <-> blank_key s = true.
Proof.
  unfold blank_key. induction s as [| x rest IH]; simpl; [tauto |].
  destruct (Ascii.eqb_spec x "/") as [-> | Hne]; simpl.
  - exact IH.
  - rewrite orb_false_r, !andb_true_iff, IH. tauto.
Qed.

Lemma clean_key_empty key : clean_key key = "" <-> blank_key key = true.
Proof.
  unfold clean_key. rewrite !str_subst_empty, py_strip_empty, str_forall_space_remove_slash.
  split.
  - intros H. apply str_forall_strip_inv in H.
    + eapply str_forall_remove_inv; [| exact H]. reflexivity.
    + intros c Hc. rewrite Hc. reflexivity.
  - intros H. apply str_forall_strip, str_forall_remove, H.
Qed.

Lemma clean_key_no_bad_char key :
  no_char " " (clean_key key) = true /\ no_char "/" (clean_key key) = true
  /\ no_char "<" (clean_key key) = true /\ no_char ">" (clean_key key) = true.
Proof.
  unfold clean_key, no_char. repeat split.
  - do 2 (apply str_forall_subst; [reflexivity |]).
    apply str_forall_strip, str_forall_remove, str_forall_strip, no_char_remove.
  - do 2 (apply str_forall_subst; [reflexivity |]).
    apply str_forall_strip, no_char_remove.
  - apply str_forall_subst; [reflexivity |]. apply no_char_subst. discriminate.
  - apply no_char_subst. discriminate.
Qed.

Lemma xml_tag_inr_well_formed (key tag : string) :
  xml_tag key = inr tag -> tag_well_formed tag = true.
Proof.
  unfold xml_tag. pose proof (clean_key_no_bad_char key) as (Hsp & Hsl & Hlt & Hgt).
  destruct (clean_key key) as [| c rest]; [discriminate |].
  intros [= <-]. unfold tag_well_formed.
  destruct (is_py_digit c) eqn:Hd.
  - change (no_char ?x ("oid-" +:+ ?s)) with (no_char x s).
    rewrite Hsp, Hsl, Hlt, Hgt. reflexivity.
  - rewrite Hd, Hsp, Hsl, Hlt, Hgt. reflexivity.
Qed.

(** X1: a tag given to an XML node is never empty, never starts with a
    digit and contains no space, slash or angle bracket. *)
Theorem xml_tag_well_formed (key tag : string) :
  xml_tag key = inr tag -> tag_well_formed tag = true.
Proof. apply xml_tag_inr_well_formed. Qed.

(** X2: computing the tag raises [IndexError] exactly when the key is
    made only of white space and slashes (the empty key included). *)
Theorem xml_tag_raises_iff_blank (key : string) :
  xml_tag key = inl (IndexError "string index out of range") <-> blank_key key = true.
Proof.
  rewrite <- clean_key_empty. unfold xml_tag.
  destruct (clean_key key); split; intros H; try discriminate; reflexivity.
Qed.

Lemma PyValue_nested_ind (P : PyValue -> Prop) :
  (forall s, P (PyStr s)) ->
  (forall n, P (PyInt n)) ->
  P PyNone ->
  (forall values, Forall P values -> P (PyList values)) ->
  (forall items, Forall (fun item => P (snd item)) items -> P (PyDict items)) ->
  (forall type_name, P (PyOther type_name)) ->
  forall value, P value.
Proof.
  intros Hstr Hint Hnone Hlist Hdict Hother.
  fix IH 1. intros [s | n | | values | items | type_name].
  - apply Hstr.
  - apply Hint.
  - apply Hnone.
  - apply Hlist. induction values as [| v rest IHrest]; constructor; [apply IH | exact IHrest].
  - apply Hdict. induction items as [| [k v] rest IHrest]; constructor;
      [apply IH | exact IHrest].
  - apply Hother.
Qed.

Section XmlNodeFacts.

Variable decode_strip : string -> Raises string.

Local Abbreviation create := (_create_xml_node decode_strip).
Local Abbreviation to_xml := (_keyvalue_pair_to_xml decode_strip).
Local Abbreviation append := (append_items decode_strip).

Lemma create_xml_node_inv key value node :
  create key value = inr node ->
  exists tag text,
    xml_tag key = inr tag /\ decode_strip value = inr text
    /\ node = MkElement tag ∅ (Some text) [].
Proof.
  unfold _create_xml_node. intros H.
  apply bind_inr in H as (tag & Htag & H).
  apply bind_inr in H as (text & Htext & H).
  injection H as <-. eauto.
Qed.

(** The loop over a dictionary is [append_items]; the loop over a list is
    [append_items] on entries all keyed ['listEntry']. *)
Lemma keyvalue_pair_to_xml_dict key items :
  to_xml key (PyDict items) = bind (create key "") (append items).
Proof. reflexivity. Qed.

Lemma keyvalue_pair_to_xml_list key values :
  to_xml key (PyList values)
  = bind (create key "") (append (map (fun val => ("listEntry", val)) values)).
Proof.
  simpl. destruct (create key "") as [e | key_xml]; [reflexivity |]. simpl.
  revert key_xml. induction values as [| val rest IH]; intros key_xml; [reflexivity |].
  simpl. destruct (to_xml "listEntry" val) as [e | child]; [reflexivity |]. simpl.
  apply IH.
Qed.

(** [append_items] adds, in order, the node of each item. *)
Lemma append_items_inv items tag attrib text children node :
  append items (MkElement tag attrib text children) = inr node ->
  exists added,
    Forall2 (fun item child => to_xml (fst item) (snd item) = inr child) items added
    /\ node = MkElement tag attrib text (children ++ added)%list.
Proof.
  revert children. induction items as [| [key value] rest IH]; intros children; simpl.
  - intros [= <-]. exists []. split; [constructor |]. rewrite app_nil_r. reflexivity.
  - intros H. apply bind_inr in H as (child & Hchild & H).
    apply IH in H as (added & Hadded & ->).
    exists (child :: added). split; [constructor; assumption |].
    rewrite <- app_assoc. reflexivity.
Qed.

Lemma keyvalue_pair_to_xml_tag key value node :
  to_xml key value = inr node -> xml_tag key = inr (element_tag node).
Proof.
  destruct value as [s | n | | values | items | type_name]; try discriminate;
    rewrite ?keyvalue_pair_to_xml_list, ?keyvalue_pair_to_xml_dict; intros H.
  1-3: apply create_xml_node_inv in H as (tag & text & Htag & _ & ->); exact Htag.
  all: apply bind_inr in H as (key_xml & Hcreate & H);
    apply create_xml_node_inv in Hcreate as (tag & text & Htag & _ & ->);
    apply append_items_inv in H as (added & _ & ->); exact Htag.
Qed.

Lemma to_xml_tags_well_formed (key : string) (value : PyValue) (node : Element) :
  to_xml key value = inr node -> element_forall tag_well_formed node = true.
Proof.
  revert key node.
  induction value as [s | n | | values IH | items IH | type_name] using PyValue_nested_ind;
    intros key node; try discriminate;
    rewrite ?keyvalue_pair_to_xml_list, ?keyvalue_pair_to_xml_dict; intros H.
  1-3: apply create_xml_node_inv in H as (tag & text & Htag & _ & ->); simpl;
    rewrite (xml_tag_inr_well_formed _ _ Htag); reflexivity.
  all: apply bind_inr in H as (key_xml & Hcreate & H);
    apply create_xml_node_inv in Hcreate as (tag & text & Htag & _ & ->);
    apply append_items_inv in H as (added & Hadded & ->); simpl;
    rewrite (xml_tag_inr_well_formed _ _ Htag); simpl;
    apply forallb_forall; intros child Hchild.
  - apply list_elem_of_In in Hchild.
    apply list_elem_of_lookup in Hchild as (i & Hi).
    destruct (Forall2_lookup_r _ _ _ i child Hadded Hi) as (item & Hitem & Hxml).
    apply list_lookup_fmap_Some in Hitem as (val & -> & Hval). simpl in Hxml.
    eapply (Forall_lookup_1 _ _ _ _ IH Hval). exact Hxml.
  - apply list_elem_of_In in Hchild.
    apply list_elem_of_lookup in Hchild as (i & Hi).
    destruct (Forall2_lookup_r _ _ _ i child Hadded Hi) as (item & Hitem & Hxml).
    eapply (Forall_lookup_1 _ _ _ _ IH Hitem). exact Hxml.
Qed.

(** X3: every node of the tree returned by [_keyvalue_pair_to_xml], at
    any depth, has a well-formed tag. *)
Theorem keyvalue_pair_to_xml_tags_well_formed (key : string) (value : PyValue) (node : Element) :
  to_xml key value = inr node -> element_forall tag_well_formed node = true.
Proof. apply to_xml_tags_well_formed. Qed.

(** X4: [_keyvalue_pair_to_xml] returns a node only when no value of an
    unsupported type occurs in the value, at any depth: one such entry in
    a nested list or dictionary makes the whole call raise. *)
Theorem keyvalue_pair_to_xml_supported (key : string) (value : PyValue) (node : Element) :
  to_xml key value = inr node -> py_supported value = true.
Proof.
  revert key node.
  induction value as [s | n | | values IH | items IH | type_name] using PyValue_nested_ind;
    intros key node; try discriminate; try reflexivity;
    rewrite ?keyvalue_pair_to_xml_list, ?keyvalue_pair_to_xml_dict; intros H.
  all: apply bind_inr in H as (key_xml & Hcreate & H);
    apply create_xml_node_inv in Hcreate as (tag & text & _ & _ & ->);
    apply append_items_inv in H as (added & Hadded & _); simpl;
    apply forallb_forall; intros item Hitem;
    apply list_elem_of_In, list_elem_of_lookup in Hitem as (i & Hi).
  - destruct (Forall2_lookup_l _ _ _ i ("listEntry", item) Hadded) as (child & _ & Hxml).
    { rewrite list_lookup_fmap, Hi. reflexivity. }
    eapply (Forall_lookup_1 _ _ _ _ IH Hi). exact Hxml.
  - destruct (Forall2_lookup_l _ _ _ i item Hadded Hi) as (child & _ & Hxml).
    eapply (Forall_lookup_1 _ _ _ _ IH Hi). exact Hxml.
Qed.

(** X5: the node of a list has one child per element, all tagged
    [listEntry]; the node of a dictionary has one child per item, in
    order, tagged with the cleaned key of the item. *)
Theorem keyvalue_pair_to_xml_children (key : string) (node : Element) :
  (forall values,
     to_xml key (PyList values) = inr node ->
     length (element_children node) = length values
     /\ Forall (fun child => element_tag child = "listEntry") (element_children node))
  /\ (forall items,
        to_xml key (PyDict items) = inr node ->
        Forall2 (fun item child => xml_tag (fst item) = inr (element_tag child))
                items (element_children node)).
Proof.
  split; intros l; rewrite ?keyvalue_pair_to_xml_list, ?keyvalue_pair_to_xml_dict; intros H;
    apply bind_inr in H as (key_xml & Hcreate & H);
    apply create_xml_node_inv in Hcreate as (tag & text & _ & _ & ->);
    apply append_items_inv in H as (added & Hadded & ->); simpl.
  - split.
    + apply Forall2_length in Hadded. rewrite length_map in Hadded. congruence.
    + apply Forall_forall. intros child Hchild.
      apply list_elem_of_lookup in Hchild as (i & Hi).
      destruct (Forall2_lookup_r _ _ _ i child Hadded Hi) as (item & Hitem & Hxml).
      apply list_lookup_fmap_Some in Hitem as (val & -> & _). simpl in Hxml.
      apply keyvalue_pair_to_xml_tag in Hxml.
      change (xml_tag "listEntry") with (@inr PyExn string "listEntry") in Hxml.
      congruence.
  - eapply Forall2_impl; [exact Hadded |]. intros item child Hxml.
    apply keyvalue_pair_to_xml_tag in Hxml. exact Hxml.
Qed.

End XmlNodeFacts.

(** ** More on the handshake task *)

(** X6: when the handshake raises anything but the
    client-certificate-requested signal, the task raises that exception
    after closing the connection, and retrieves nothing. *)
Theorem handshake_task_connect_failure
    (server_info : ServerConnectivityInfo) (store : TrustStore) (e : PyExn) :
  let ssl_connection := get_preconfigured_ssl_connection server_info (path store) in
  on_set_tlsext_status_ocsp ssl_connection [] = inr tt ->
  on_connect ssl_connection [set_tlsext_status_ocsp] = inl e ->
  (forall msg, e <> ClientCertificateRequested msg) ->
  _get_and_verify_certificate_chain server_info store []
  = (inl e, [set_tlsext_status_ocsp; connect; close]).
Proof.
  intros ssl_connection Hset Hconnect Hother.
  unfold _get_and_verify_certificate_chain. fold ssl_connection.
  unfold conn_finally, conn_try_except, conn_bind, call, conn_raise. simpl.
  rewrite Hset. simpl. rewrite Hconnect.
  destruct e; try reflexivity. exfalso. eapply Hother. reflexivity.
Qed.

Ltac solve_retrieval :=
  match goal with
  | Hv : _ = inr ?p |- context [snd ?p] => destruct p as [? ?]; simpl
  end;
  intros [= <- <- <-];
  first
    [ exists [set_tlsext_status_ocsp; connect]; eexists;
      repeat split; solve [eassumption | apply list_elem_of_In; simpl; auto]
    | exists [set_tlsext_status_ocsp; connect; get_tlsext_status_ocsp_resp]; eexists;
      repeat split; solve [eassumption | apply list_elem_of_In; simpl; auto]
    | exists [set_tlsext_status_ocsp; connect; get_tlsext_status_ocsp_resp;
              get_peer_cert_chain]; eexists;
      repeat split; solve [eassumption | apply list_elem_of_In; simpl; auto]
    | exists [set_tlsext_status_ocsp; connect; get_tlsext_status_ocsp_resp;
              get_peer_cert_chain; get_certificate_chain_verify_result]; eexists;
      repeat split; solve [eassumption | apply list_elem_of_In; simpl; auto] ].

(** X7: whenever the task returns, the staple, the chain and the verify
    string it returns are what the last three calls before [close]
    returned, in that order, on a connection on which [connect] was called. *)
Theorem handshake_task_return_sound
    (server_info : ServerConnectivityInfo) (store : TrustStore) chain verify_str ocsp :
  let ssl_connection := get_preconfigured_ssl_connection server_info (path store) in
  let run := _get_and_verify_certificate_chain server_info store [] in
  fst run = inr (chain, verify_str, ocsp) ->
  exists before code,
    snd run = (before ++ [get_tlsext_status_ocsp_resp; get_peer_cert_chain;
                          get_certificate_chain_verify_result; close])%list
    /\ connect ∈ before
    /\ on_get_tlsext_status_ocsp_resp ssl_connection before = inr ocsp
    /\ on_get_peer_cert_chain ssl_connection (before ++ [get_tlsext_status_ocsp_resp])
       = inr chain
    /\ on_get_certificate_chain_verify_result ssl_connection
         (before ++ [get_tlsext_status_ocsp_resp; get_peer_cert_chain])
       = inr (code, verify_str).
Proof.
  intros ssl_connection run. subst run.
  unfold _get_and_verify_certificate_chain. fold ssl_connection.
  unfold retrieve_after_handshake, conn_finally, conn_try_except, conn_bind, call,
    conn_ret, conn_raise.
  simpl. case_call_outcomes; try discriminate; solve_retrieval.
Qed.

(** ** More on the construction of the result *)

Section MoreInitFacts.

Variable env : Collaborators.

Lemma try_build_verified_chain_inr (main : TrustStore) (chain : list Certificate) built :
  try_build_verified_chain env main chain = inr built <->
  (build_verified_certificate_chain env main chain = inr (fst built) /\ snd built = true)
  \/ (exists msg,
        build_verified_certificate_chain env main chain
        = inl (InvalidCertificateChainOrderError msg)) /\ built = ([], false)
  \/ (exists msg,
        build_verified_certificate_chain env main chain
        = inl (AnchorCertificateNotInTrustStoreError msg)) /\ built = ([], true).
Proof.
  unfold try_build_verified_chain.
  destruct (build_verified_certificate_chain env main chain) as [e | verified]; simpl.
  - destruct e; simpl;
      (split; [intros H | intros [[H _] | [[(m' & H) Hb] | [(m' & H) Hb]]]]);
      try discriminate; try (subst built; reflexivity).
    + injection H as <-. right. left. eauto.
    + injection H as <-. right. right. eauto.
  - destruct built as [v b]. simpl. split.
    + intros [= -> ->]. auto.
    + intros [[[= ->] ->] | [[(m & ?) _] | [(m & ?) _]]]; [reflexivity | discriminate ..].
Qed.

(** X8: the constructor returns a result exactly when a staple was
    captured and its verification returns, the received chain is not
    empty, and the chain builder raises nothing but its two chain-building
    errors. *)
Theorem CertificateInfoResult__init___returns_iff
    si sc chain results errors (ocsp : option OcspResponse) :
  (exists self,
     CertificateInfoResult__init__ env si sc chain results errors ocsp = inr self)
  <-> (exists staple verdict,
         ocsp = Some staple /\ verify staple (path (get_main env)) = inr verdict)
      /\ chain <> []
      /\ (forall e,
            build_verified_certificate_chain env (get_main env) (map from_nassl chain) = inl e ->
            (exists msg, e = InvalidCertificateChainOrderError msg)
            \/ (exists msg, e = AnchorCertificateNotInTrustStoreError msg)).
Proof.
  split.
  - intros (self & Hinit).
    apply CertificateInfoResult__init___inv in Hinit
      as (staple & verdict & built & -> & Hverify & Hbuilt & Hchain & _).
    split; [eauto |]. split; [exact Hchain |].
    intros e He. apply try_build_verified_chain_inr in Hbuilt.
    destruct Hbuilt as [[Hb _] | [[(m & Hb) _] | [(m & Hb) _]]]; rewrite He in Hb.
    + discriminate.
    + injection Hb as ->. eauto.
    + injection Hb as ->. eauto.
  - intros ((staple & verdict & -> & Hverify) & Hchain & Hbuild).
    destruct chain as [| leaf rest]; [congruence |].
    assert (exists built,
              try_build_verified_chain env (get_main env) (map from_nassl (leaf :: rest))
              = inr built) as (built & Hbuilt).
    { unfold try_build_verified_chain.
      destruct (build_verified_certificate_chain env (get_main env)
                  (map from_nassl (leaf :: rest))) as [e | verified]; simpl; [| eauto].
      destruct (Hbuild e eq_refl) as [(m & ->) | (m & ->)]; simpl; eauto. }
    eapply CertificateInfoResult__init___returns; eassumption.
Qed.

(** X9: the chain-order flag of a constructed result is false exactly
    when the chain builder raised the order fault. *)
Theorem chain_order_flag_iff
    si sc chain results errors ocsp (self : CertificateInfoResult) :
  CertificateInfoResult__init__ env si sc chain results errors ocsp = inr self ->
  (is_certificate_chain_order_valid self = false
   <-> exists msg,
         build_verified_certificate_chain env (get_main env) (map from_nassl chain)
         = inl (InvalidCertificateChainOrderError msg)).
Proof.
  intros Hinit.
  apply CertificateInfoResult__init___inv in Hinit
    as (staple & verdict & built & _ & _ & Hbuilt & _ & _ & _ & _ & -> & _).
  apply try_build_verified_chain_inr in Hbuilt.
  destruct Hbuilt as [[Hb ->] | [[(m & Hb) ->] | [(m & Hb) ->]]]; simpl; split;
    try discriminate; eauto; intros (m' & Hm'); rewrite Hb in Hm'; discriminate.
Qed.

(** X10: a non-empty verified chain in a constructed result is the chain
    the builder returned, the main store's verdict is trusted, and the
    chain-order flag is true. *)
Theorem verified_chain_nonempty_inv
    si sc chain results errors ocsp (self : CertificateInfoResult) :
  CertificateInfoResult__init__ env si sc chain results errors ocsp = inr self ->
  verified_certificate_chain self <> [] ->
  find_main_store_verdict env (get_main env) results = true
  /\ build_verified_certificate_chain env (get_main env) (map from_nassl chain)
     = inr (verified_certificate_chain self)
  /\ is_certificate_chain_order_valid self = true.
Proof.
  intros Hinit Hne.
  apply CertificateInfoResult__init___inv in Hinit
    as (staple & verdict & built & _ & _ & Hbuilt & _ & _ & _ & _ & Horder & Hverified & _).
  rewrite Hverified in Hne |- *. rewrite Horder.
  destruct (find_main_store_verdict env (get_main env) results); simpl in *; [| congruence].
  apply try_build_verified_chain_inr in Hbuilt.
  destruct Hbuilt as [[Hb ->] | [[_ ->] | [_ ->]]]; simpl in *; [auto | congruence ..].
Qed.

(** X11: the lookup of the main store's verdict answers the trusted flag
    of the last entry recorded for the main store, and [False] when there
    is none: with several entries the last one wins. *)
Theorem find_main_store_verdict_last (main : TrustStore) (results : list PathValidationResult) :
  find_main_store_verdict env main results
  = match last (List.filter (fun path_result =>
                               TrustStore_eq env (trust_store path_result) main) results) with
    | Some path_result => is_certificate_trusted path_result
    | None => false
    end.
Proof.
  unfold find_main_store_verdict.
  induction results as [| path_result rest IH] using rev_ind; [reflexivity |].
  rewrite fold_left_app, List.filter_app. simpl.
  destruct (TrustStore_eq env (trust_store path_result) main).
  - rewrite last_snoc. reflexivity.
  - rewrite app_nil_r. exact IH.
Qed.

End MoreInitFacts.

(** ** More on the orchestrator *)

Section MoreOrchestrator.

Variable env : Collaborators.

Hypothesis completion_order_perm : forall jobs, completion_order env jobs ≡ₚ jobs.

Lemma collect_results_spec results :
  collect_results results
  = (match last results with Some job => fst (fst (snd job)) | None => [] end,
     map (fun job => PathValidationResult__init__ (fst job) (snd (fst (snd job)))) results,
     match last results with Some job => snd (snd job) | None => None end).
Proof.
  unfold collect_results.
  induction results as [| job rest IH] using rev_ind; [reflexivity |].
  rewrite fold_left_app, map_app, last_snoc, IH.
  destruct job as [store [[chain verify_str] ocsp]]. reflexivity.
Qed.

Lemma finished_jobs_length server_info scan_command :
  length (finished_jobs env server_info scan_command)
  = length (final_trust_store_list env scan_command).
Proof.
  unfold finished_jobs.
  rewrite (Permutation_length (completion_order_perm _)), length_map. reflexivity.
Qed.

Lemma thread_pool_lengths
    (finished : list (TrustStore * Raises (list X509Certificate * string * option OcspResponse))) :
  (length (thread_pool_get_result finished) + length (thread_pool_get_error finished))%nat
  = length finished.
Proof.
  pose proof (Permutation_length (thread_pool_partition finished)) as H.
  rewrite length_app, !length_map in H. exact H.
Qed.

(** X12: when every handshake task raises, [process_task] raises the
    connectivity error, and its text ends with the description of the last
    error handed back by the pool. *)
Theorem process_task_raises_when_all_fail server_info scan_command :
  (forall store,
     store ∈ final_trust_store_list env scan_command ->
     exists e, fst (_get_and_verify_certificate_chain server_info store []) = inl e) ->
  process_task env server_info scan_command
  = inl (RuntimeError
           ("Could not connect to the server; last error: "
              +:+ format_last_exception
                    (snd <$> last (thread_pool_get_error
                                     (finished_jobs env server_info scan_command))))).
Proof. apply process_task_all_failed, completion_order_perm. Qed.

(** X13: in a result returned by [process_task], the stores of the
    validation results together with the stores of the validation errors
    are the stores attempted, each exactly once. *)
Theorem process_task_outcomes_match_stores server_info scan_command self :
  process_task env server_info scan_command = inr self ->
  (map trust_store (path_validation_result_list self)
     ++ map error_trust_store (path_validation_error_list self))%list
  ≡ₚ final_trust_store_list env scan_command.
Proof. apply process_task_one_outcome_per_store, completion_order_perm. Qed.

(** X14: with no trust store at all, [process_task] raises the
    connectivity error with the text [last error: None]. *)
Theorem process_task_no_stores server_info scan_command :
  final_trust_store_list env scan_command = [] ->
  process_task env server_info scan_command
  = inl (RuntimeError "Could not connect to the server; last error: None").
Proof.
  intros Hstores.
  assert (Hfinished : finished_jobs env server_info scan_command = []).
  { apply length_zero_iff_nil. rewrite finished_jobs_length, Hstores. reflexivity. }
  unfold process_task. rewrite Hfinished, Hstores. reflexivity.
Qed.

(** X15: as soon as one handshake task returns, [process_task] is the
    construction of the result from the chain and the staple of the last
    successful job handed back by the pool, one validation result per
    successful job and one validation error per failed job. *)
Theorem process_task_some_success server_info scan_command store result :
  store ∈ final_trust_store_list env scan_command ->
  fst (_get_and_verify_certificate_chain server_info store []) = inr result ->
  let finished := finished_jobs env server_info scan_command in
  exists last_store chain verify_str ocsp,
    last (thread_pool_get_result finished) = Some (last_store, (chain, verify_str, ocsp))
    /\ process_task env server_info scan_command
       = CertificateInfoResult__init__ env server_info scan_command chain
           (map (fun job => PathValidationResult__init__ (fst job) (snd (fst (snd job))))
                (thread_pool_get_result finished))
           (map (fun job => PathValidationError__init__ (fst job) (snd job))
                (thread_pool_get_error finished))
           ocsp.
Proof.
  intros Hstore Hresult finished.
  assert (Hin : (store, result) ∈ thread_pool_get_result finished).
  { unfold thread_pool_get_result. apply list_elem_of_omap.
    exists (store, inr result). split; [| reflexivity].
    subst finished. unfold finished_jobs. rewrite completion_order_perm.
    apply list_elem_of_fmap. exists store. rewrite Hresult. auto. }
  destruct (last (thread_pool_get_result finished))
    as [[last_store [[chain verify_str] ocsp]] |] eqn:Hlast.
  2: { apply last_None in Hlast. rewrite Hlast in Hin. inversion Hin. }
  exists last_store, chain, verify_str, ocsp. split; [reflexivity |].
  unfold process_task. fold finished.
  rewrite collect_results_spec, collect_errors_list, Hlast, length_map. simpl.
  pose proof (thread_pool_lengths finished) as Hlen.
  subst finished. rewrite finished_jobs_length in Hlen.
  destruct (Nat.eqb_spec
              (length (thread_pool_get_error (finished_jobs env server_info scan_command)))
              (length (final_trust_store_list env scan_command))) as [Heq | _];
    [| reflexivity].
  exfalso. rewrite <- Heq in Hlen.
  destruct (thread_pool_get_result (finished_jobs env server_info scan_command));
    [discriminate | simpl in Hlen; lia].
Qed.

(** X16: a result returned by [process_task] has at least one validation
    result, so rendering its error entries, in text and in XML, returns
    one entry per error and never raises. *)
Theorem process_task_result_has_path_result server_info scan_command self :
  process_task env server_info scan_command = inr self ->
  path_validation_result_list self <> []
  /\ (exists lines,
        as_text_path_errors self = inr lines
        /\ length lines = length (path_validation_error_list self))
  /\ (exists elements,
        as_xml_path_errors self = inr elements
        /\ length elements = length (path_validation_error_list self)).
Proof.
  intros Hprocess.
  assert (Hne : path_validation_result_list self <> []).
  { pose proof (Permutation_length
                  (process_task_one_outcome_per_store env completion_order_perm
                     server_info scan_command self Hprocess)) as Hlen.
    rewrite length_app, !length_map in Hlen.
    revert Hprocess. unfold process_task.
    rewrite collect_results_spec, collect_errors_list, length_map.
    destruct (Nat.eqb_spec
                (length (thread_pool_get_error (finished_jobs env server_info scan_command)))
                (length (final_trust_store_list env scan_command))) as [_ | Hneq];
      [discriminate |].
    intros Hinit.
    apply CertificateInfoResult__init___inv in Hinit
      as (staple & verdict & built & _ & _ & _ & _ & _ & _ & _ & _ & _ & _ & _ & Hres & Herr).
    intros Hnil. rewrite Hnil, Herr, length_map in Hlen. simpl in Hlen. lia. }
  split; [exact Hne |].
  unfold as_text_path_errors, as_xml_path_errors.
  destruct (last (path_validation_result_list self)) as [path_result |] eqn:Hlast.
  2: { apply last_None in Hlast. congruence. }
  destruct (path_validation_error_list self) as [| path_error rest];
    split; eexists; (split; [reflexivity |]); rewrite ?length_map; reflexivity.
Qed.

End MoreOrchestrator.

(** ** More on the reports *)

(** X17: [as_text] writes one line per validation error, and every such
    line carries the store label of the last validation-result line, not
    the label of the store that failed. *)
Theorem path_error_lines_repeat_last_result_label
    (env : Collaborators) (self : CertificateInfoResult) (lines : list TextLine) :
  as_text_path_errors self = inr lines ->
  length lines = length (path_validation_error_list self)
  /\ forall line,
       line ∈ lines ->
       exists label error_txt result_txt,
         line = format_field label error_txt
         /\ last (as_text_path_results env self) = Some (format_field label result_txt).
Proof.
  unfold as_text_path_errors, as_text_path_results.
  destruct (path_validation_error_list self) as [| path_error rest] eqn:Herrors.
  - intros [= <-]. split; [reflexivity |]. intros line Hin. inversion Hin.
  - destruct (last (path_validation_result_list self)) as [path_result |] eqn:Hlast;
      [| discriminate].
    intros [= <-]. split; [simpl; rewrite ?length_map; reflexivity |].
    intros line Hin.
    apply elem_of_cons in Hin as [-> | Hin];
      [| apply list_elem_of_fmap in Hin as (path_error' & -> & _)].
    all: do 3 eexists; (split; [reflexivity |]);
      apply last_Some in Hlast as (front & ->);
      rewrite map_app; simpl; rewrite last_snoc; reflexivity.
Qed.

Section HostnameFacts.

Variables X509_NAME_MISMATCH X509_NAME_MATCHES_SAN X509_NAME_MATCHES_CN : Z.

(** X18: the hostname line of [as_text] is produced exactly for the three
    known result codes; for any other code [as_text] raises [KeyError]
    while [as_xml] reports the hostname as matching. *)
Theorem hostname_validation_reports (self : CertificateInfoResult) :
  let code := hostname_validation_result self in
  ((exists lines,
      as_text_hostname_lines X509_NAME_MISMATCH X509_NAME_MATCHES_SAN X509_NAME_MATCHES_CN self
      = inr lines)
   <-> code = X509_NAME_MISMATCH \/ code = X509_NAME_MATCHES_SAN
       \/ code = X509_NAME_MATCHES_CN)
  /\ (code <> X509_NAME_MISMATCH -> code <> X509_NAME_MATCHES_SAN ->
      code <> X509_NAME_MATCHES_CN ->
      as_text_hostname_lines X509_NAME_MISMATCH X509_NAME_MATCHES_SAN X509_NAME_MATCHES_CN self
      = inl (OtherException "KeyError" (pretty code))
      /\ element_attrib (host_validation_xml X509_NAME_MISMATCH self)
           !! "certificateMatchesServerHostname" = Some "True").
Proof.
  intros code. subst code. unfold as_text_hostname_lines, HOSTNAME_VALIDATION_TEXT.
  split.
  - split.
    + intros (lines & H).
      destruct (decide (hostname_validation_result self = X509_NAME_MISMATCH)); [auto |].
      destruct (decide (hostname_validation_result self = X509_NAME_MATCHES_CN)); [auto |].
      destruct (decide (hostname_validation_result self = X509_NAME_MATCHES_SAN)); [auto |].
      rewrite !lookup_insert_ne, lookup_empty in H by congruence. discriminate.
    + intros Hcode.
      destruct (decide (X509_NAME_MISMATCH = hostname_validation_result self)) as [<- | ?].
      { rewrite lookup_insert_eq. eauto. }
      rewrite lookup_insert_ne by assumption.
      destruct (decide (X509_NAME_MATCHES_CN = hostname_validation_result self)) as [<- | ?].
      { rewrite lookup_insert_eq. eauto. }
      rewrite lookup_insert_ne by assumption.
      destruct (decide (X509_NAME_MATCHES_SAN = hostname_validation_result self)) as [<- | ?].
      { rewrite lookup_insert_eq. eauto. }
      exfalso. destruct Hcode as [? | [? | ?]]; congruence.
  - intros Hm Hs Hc.
    rewrite !lookup_insert_ne, lookup_empty by congruence. split; [reflexivity |].
    unfold host_validation_xml. simpl.
    destruct (Z.eqb_spec (hostname_validation_result self) X509_NAME_MISMATCH);
      [congruence |].
    rewrite lookup_insert_eq. reflexivity.
Qed.

End HostnameFacts.

(** X19: when the main store's verdict is not trusted, the text report of
    the constructed result shows the could-not-build text on the verified
    chain, anchor and SHA-1 lines, still reports the chain order, and the
    XML report has no anchor attribute. *)
Theorem untrusted_report_lines
    (env : Collaborators) si sc chain results errors ocsp (self : CertificateInfoResult) :
  CertificateInfoResult__init__ env si sc chain results errors ocsp = inr self ->
  find_main_store_verdict env (get_main env) results = false ->
  as_text_chain_lines self
  = [format_field "Received Chain:"
       (str_join " --> " (map printable_subject_name (map from_nassl chain)));
     format_field "Verified Chain w/ Mozilla Store:" NO_VERIFIED_CHAIN_ERROR_TXT;
     format_field "Received Chain Contains Anchor:" NO_VERIFIED_CHAIN_ERROR_TXT;
     format_field "Received Chain Order:"
       (if is_certificate_chain_order_valid self
        then "OK - Order is valid" else "FAILED - Certificate chain out of order!");
     format_field "Verified Chain contains SHA1:" NO_VERIFIED_CHAIN_ERROR_TXT]
  /\ cert_chain_attrs self !! "containsAnchorCertificate" = None.
Proof.
  intros Hinit Hverdict.
  apply CertificateInfoResult__init___inv in Hinit
    as (staple & verdict & built & _ & _ & _ & _ & _ & _ & Hchain & _ & Hverified & _).
  rewrite Hverdict in Hverified. simpl in Hverified.
  unfold as_text_chain_lines, cert_chain_attrs. rewrite Hverified, Hchain.
  split; reflexivity.
Qed.

(** X20: for a constructed result, the XML attribute
    [containsAnchorCertificate] is [True], and the anchor line of the text
    report is the warning, exactly when the anchor of the verified chain
    compares equal to a certificate of the received chain. *)
Theorem anchor_reported_iff_sent
    (env : Collaborators) si sc chain results errors ocsp (self : CertificateInfoResult) :
  CertificateInfoResult__init__ env si sc chain results errors ocsp = inr self ->
  let sent :=
    exists anchor cert,
      last (verified_certificate_chain self) = Some anchor
      /\ cert ∈ map from_nassl chain
      /\ Certificate_eq env anchor cert = true in
  (cert_chain_attrs self !! "containsAnchorCertificate" = Some "True" <-> sent)
  /\ (as_text_chain_lines self !! 2%nat
      = Some (format_field "Received Chain Contains Anchor:"
                "WARNING - Received certificate chain contains the anchor certificate")
      <-> sent).
Proof.
  intros Hinit sent. subst sent.
  apply CertificateInfoResult__init___inv in Hinit
    as (staple & verdict & built & _ & _ & _ & _ & _ & _ & Hchain & _ & _ & Hanchor & _).
  unfold cert_chain_attrs, as_text_chain_lines. rewrite Hanchor, Hchain. simpl.
  destruct (verified_certificate_chain self) as [| c rest] eqn:Hv.
  - simpl. split; (split; [discriminate |]); intros (anchor & cert & Hl & _); discriminate.
  - destruct (last (c :: rest)) as [anchor |] eqn:Hlast;
      [| apply last_None in Hlast; discriminate].
    simpl.
    destruct (py_in (Certificate_eq env) anchor (map from_nassl chain)) eqn:Hin; simpl;
      rewrite lookup_insert_eq.
    + apply py_in_true in Hin as (cert & Hcert & Heq).
      split; (split; [intros _; eauto |]); reflexivity.
    + split; (split; [discriminate |]); intros (anchor' & cert & [= <-] & Hcert & Heq);
        exfalso; apply not_true_iff_false in Hin; apply Hin; apply py_in_true; eauto.
Qed.

Section XmlReportFacts.

Variable decode_strip : string -> Raises string.
Variable Certificate_items : Certificate -> list (string * PyValue).
Variable OcspDict_items : OcspDict -> list (string * PyValue).
Variable X509_NAME_MISMATCH : Z.

Local Abbreviation received_list := (received_cert_xml_list decode_strip Certificate_items).
Local Abbreviation verified_list := (verified_cert_xml_list decode_strip Certificate_items).
Local Abbreviation path_xml := (path_validation_xml decode_strip Certificate_items).
Local Abbreviation path_xml_list := (path_validation_xml_list decode_strip Certificate_items).

(** [append_items] keeps the tag and the attributes, and every node it
    adds has well-formed tags. *)
Lemma append_items_keeps items node node' :
  append_items decode_strip items node = inr node' ->
  element_tag node' = element_tag node
  /\ element_attrib node' = element_attrib node
  /\ (element_forall tag_well_formed node = true ->
      element_forall tag_well_formed node' = true).
Proof.
  destruct node as [tag attrib text children]. intros H.
  apply append_items_inv in H as (added & Hadded & ->). simpl.
  repeat split. intros [Htag Hchildren]%andb_prop. rewrite Htag. simpl.
  rewrite forallb_app, Hchildren. simpl.
  apply forallb_forall. intros child Hchild.
  apply list_elem_of_In, list_elem_of_lookup in Hchild as (i & Hi).
  destruct (Forall2_lookup_r _ _ _ i child Hadded Hi) as (item & _ & Hxml).
  eapply to_xml_tags_well_formed. exact Hxml.
Qed.

Lemma received_cert_xml_list_lookup self index chain certs :
  received_list self index chain = inr certs ->
  length certs = length chain
  /\ forall k xml,
       certs !! k = Some xml ->
       exists certificate,
         chain !! k = Some certificate
         /\ received_cert_xml decode_strip Certificate_items self (index + k) certificate
            = inr xml.
Proof.
  revert index certs. induction chain as [| certificate rest IH]; intros index certs; simpl.
  - intros [= <-]. split; [reflexivity |]. intros k xml Hk. discriminate.
  - intros H. apply bind_inr in H as (cert_xml & Hcert & H).
    apply bind_inr in H as (others & Hothers & H). injection H as <-.
    apply IH in Hothers as (Hlen & Hothers). split; [simpl; congruence |].
    intros [| k] xml Hk; simpl in Hk.
    + injection Hk as <-. exists certificate. rewrite Nat.add_0_r. auto.
    + apply Hothers in Hk as (c & Hc & Hxml). exists c. split; [exact Hc |].
      rewrite <- Hxml. f_equal. lia.
Qed.

(** X22: the received chain is rendered as one [certificate] element per
    certificate, in order; the first has position [leaf] and every other
    one [intermediate]. *)
Theorem received_chain_xml_positions (self : CertificateInfoResult) (certs : list Element) :
  received_list self 0 (certificate_chain self) = inr certs ->
  length certs = length (certificate_chain self)
  /\ forall k xml,
       certs !! k = Some xml ->
       exists certificate,
         certificate_chain self !! k = Some certificate
         /\ element_tag xml = "certificate"
         /\ element_attrib xml !! "sha1Fingerprint" = Some (sha1_fingerprint certificate)
         /\ element_attrib xml !! "position"
            = Some (if (k =? 0)%nat then "leaf" else "intermediate").
Proof.
  intros H. apply received_cert_xml_list_lookup in H as (Hlen & H).
  split; [exact Hlen |]. intros k xml Hk.
  apply H in Hk as (certificate & Hc & Hxml). exists certificate. split; [exact Hc |].
  unfold received_cert_xml in Hxml.
  apply append_items_keeps in Hxml as (-> & -> & _). simpl.
  rewrite lookup_insert_eq, lookup_insert_ne, lookup_insert_eq by done. auto.
Qed.

Lemma verified_cert_xml_list_spec self chain certs :
  verified_list self chain = inr certs ->
  map (fun xml => element_attrib xml !! "sha1Fingerprint") certs
  = map (fun certificate => Some (sha1_fingerprint certificate)) chain
  /\ forallb (element_forall tag_well_formed) certs = true.
Proof.
  revert certs. induction chain as [| certificate rest IH]; intros certs; simpl.
  - intros [= <-]. split; reflexivity.
  - intros H. apply bind_inr in H as (cert_xml & Hcert & H).
    apply bind_inr in H as (others & Hothers & H). injection H as <-.
    apply IH in Hothers as (Hfp & Htags).
    apply append_items_keeps in Hcert as (_ & Hattrib & Hwf). simpl.
    rewrite Hattrib, Hfp, Htags, Hwf by reflexivity. simpl.
    rewrite lookup_insert_eq. split; reflexivity.
Qed.

(** X23: a [pathValidation] element has a [verifiedCertificateChain]
    child only for a store whose name contains Mozilla and a non-empty
    verified chain, and that child lists the certificates of the received
    chain. *)
Theorem verified_chain_xml_lists_received_chain
    (self : CertificateInfoResult) (path_result : PathValidationResult) (node : Element) :
  path_xml self path_result = inr node ->
  element_attrib node = path_attrib_xml self path_result
  /\ (element_children node = []
      \/ exists attrib certs,
           element_children node = [MkElement "verifiedCertificateChain" attrib None certs]
           /\ verified_certificate_chain self <> []
           /\ str_contains "Mozilla" (name (trust_store path_result)) = true
           /\ map (fun xml => element_attrib xml !! "sha1Fingerprint") certs
              = map (fun certificate => Some (sha1_fingerprint certificate))
                    (certificate_chain self)).
Proof.
  unfold path_validation_xml.
  destruct (str_contains "Mozilla" (name (trust_store path_result))) eqn:Hname.
  - destruct (verified_certificate_chain self) as [| c rest] eqn:Hv.
    + intros [= <-]. simpl. auto.
    + intros H. apply bind_inr in H as (certs & Hcerts & H). injection H as <-. simpl.
      split; [reflexivity |]. right.
      apply verified_cert_xml_list_spec in Hcerts as (Hfp & _).
      do 2 eexists. repeat split; [discriminate | exact Hfp].
  - intros [= <-]. simpl. auto.
Qed.

Lemma path_validation_xml_well_formed self path_result node :
  path_xml self path_result = inr node ->
  element_tag node = "pathValidation"
  /\ element_forall tag_well_formed node = true.
Proof.
  unfold path_validation_xml.
  destruct (str_contains "Mozilla" (name (trust_store path_result))).
  - destruct (verified_certificate_chain self) as [| c rest].
    + intros [= <-]. split; reflexivity.
    + intros H. apply bind_inr in H as (certs & Hcerts & H). injection H as <-.
      apply verified_cert_xml_list_spec in Hcerts as (_ & Htags).
      split; [reflexivity |]. simpl. rewrite Htags. reflexivity.
  - intros [= <-]. split; reflexivity.
Qed.

Lemma path_validation_xml_list_spec self results nodes :
  path_xml_list self results = inr nodes ->
  length nodes = length results
  /\ forallb (element_forall tag_well_formed) nodes = true.
Proof.
  revert nodes. induction results as [| path_result rest IH]; intros nodes; simpl.
  - intros [= <-]. split; reflexivity.
  - intros H. apply bind_inr in H as (node & Hnode & H).
    apply bind_inr in H as (others & Hothers & H). injection H as <-.
    apply IH in Hothers as (Hlen & Htags).
    apply path_validation_xml_well_formed in Hnode as (_ & Hwf).
    simpl. rewrite Hlen, Hwf, Htags. split; reflexivity.
Qed.

Lemma as_xml_path_errors_spec self nodes :
  as_xml_path_errors self = inr nodes ->
  length nodes = length (path_validation_error_list self)
  /\ forallb (element_forall tag_well_formed) nodes = true.
Proof.
  unfold as_xml_path_errors.
  destruct (path_validation_error_list self) as [| path_error rest].
  - intros [= <-]. split; reflexivity.
  - destruct (last (path_validation_result_list self)); [| discriminate].
    intros [= <-]. split; [simpl; rewrite ?length_map; reflexivity |].
    apply forallb_forall. intros node Hnode.
    apply list_elem_of_In, elem_of_cons in Hnode as [-> | Hnode]; [reflexivity |].
    apply list_elem_of_fmap in Hnode as (pe & -> & _). reflexivity.
Qed.

Lemma received_cert_xml_list_well_formed self index chain certs :
  received_list self index chain = inr certs ->
  forallb (element_forall tag_well_formed) certs = true.
Proof.
  revert index certs. induction chain as [| certificate rest IH]; intros index certs; simpl.
  - intros [= <-]. reflexivity.
  - intros H. apply bind_inr in H as (cert_xml & Hcert & H).
    apply bind_inr in H as (others & Hothers & H). injection H as <-.
    apply IH in Hothers. unfold received_cert_xml in Hcert.
    apply append_items_keeps in Hcert as (_ & _ & Hwf).
    simpl. rewrite Hwf, Hothers by reflexivity. reflexivity.
Qed.

Lemma ocsp_stapling_xml_well_formed self node :
  ocsp_stapling_xml decode_strip OcspDict_items self = inr node ->
  element_tag node = "ocspStapling"
  /\ element_forall tag_well_formed node = true.
Proof.
  unfold ocsp_stapling_xml.
  destruct (ocsp_response self) as [response |]; [| intros [= <-]; split; reflexivity].
  destruct (OcspDict_items response) as [| item rest] eqn:Hitems;
    [intros [= <-]; split; reflexivity |].
  intros H. apply bind_inr in H as (ocsp_resp_xml & Hresp & H). injection H as <-.
  apply append_items_keeps in Hresp as (_ & _ & Hwf).
  split; [reflexivity |]. simpl. rewrite Hwf by reflexivity. reflexivity.
Qed.


End XmlReportFacts.

(** * Worked examples *)

Lemma xml_tag_well_formed_witness :
  xml_tag "2.5.29.15" = inr "oid-2.5.29.15" /\ tag_well_formed "oid-2.5.29.15" = true.
Proof.
  split; [reflexivity |]. apply (xml_tag_well_formed "2.5.29.15"). reflexivity.
Defined.

Lemma keyvalue_pair_to_xml_tags_well_formed_witness :
  exists node,
    _keyvalue_pair_to_xml DemoReport.decode_strip "extensions" DemoReport.extensions
    = inr node
    /\ element_forall tag_well_formed node = true.
Proof.
  eexists. split; [vm_compute; reflexivity |].
  apply (keyvalue_pair_to_xml_tags_well_formed DemoReport.decode_strip
           "extensions" DemoReport.extensions).
  vm_compute. reflexivity.
Defined.

Lemma keyvalue_pair_to_xml_supported_witness :
  exists node,
    _keyvalue_pair_to_xml DemoReport.decode_strip "extensions" DemoReport.extensions
    = inr node
    /\ py_supported DemoReport.extensions = true.
Proof.
  assert (exists node,
            _keyvalue_pair_to_xml DemoReport.decode_strip "extensions" DemoReport.extensions
            = inr node) as [node Hnode] by (vm_compute; eexists; reflexivity).
  exists node. split; [exact Hnode |].
  exact (keyvalue_pair_to_xml_supported DemoReport.decode_strip
           "extensions" DemoReport.extensions node Hnode).
Defined.

Lemma keyvalue_pair_to_xml_children_witness :
  exists node,
    _keyvalue_pair_to_xml DemoReport.decode_strip "DNS"
      (PyList [PyStr "www.example.com"; PyStr "example.com"]) = inr node
    /\ length (element_children node) = 2%nat
    /\ Forall (fun child => element_tag child = "listEntry") (element_children node).
Proof.
  assert (exists node,
            _keyvalue_pair_to_xml DemoReport.decode_strip "DNS"
              (PyList [PyStr "www.example.com"; PyStr "example.com"]) = inr node)
    as [node Hnode] by (vm_compute; eexists; reflexivity).
  exists node. split; [exact Hnode |].
  exact (proj1 (keyvalue_pair_to_xml_children DemoReport.decode_strip "DNS" node)
           [PyStr "www.example.com"; PyStr "example.com"] Hnode).
Defined.

Lemma handshake_task_connect_failure_witness :
  _get_and_verify_certificate_chain DemoReport.server_down Demo.mozilla []
  = (inl (OtherException "error" "Connection refused"),
     [set_tlsext_status_ocsp; connect; close]).
Proof.
  apply (handshake_task_connect_failure DemoReport.server_down Demo.mozilla).
  - reflexivity.
  - reflexivity.
  - intros msg. discriminate.
Defined.

Lemma handshake_task_return_sound_witness :
  exists before code,
    snd (_get_and_verify_certificate_chain DemoReport.server_up Demo.mozilla [])
    = (before ++ [get_tlsext_status_ocsp_resp; get_peer_cert_chain;
                  get_certificate_chain_verify_result; close])%list
    /\ connect ∈ before
    /\ on_get_tlsext_status_ocsp_resp
         (get_preconfigured_ssl_connection DemoReport.server_up (path Demo.mozilla)) before
       = inr (Some Demo.staple)
    /\ on_get_peer_cert_chain
         (get_preconfigured_ssl_connection DemoReport.server_up (path Demo.mozilla))
         (before ++ [get_tlsext_status_ocsp_resp])
       = inr [Demo.x509 Demo.leaf; Demo.x509 Demo.intermediate]
    /\ on_get_certificate_chain_verify_result
         (get_preconfigured_ssl_connection DemoReport.server_up (path Demo.mozilla))
         (before ++ [get_tlsext_status_ocsp_resp; get_peer_cert_chain])
       = inr (code, "ok").
Proof.
  apply (handshake_task_return_sound DemoReport.server_up Demo.mozilla
           [Demo.x509 Demo.leaf; Demo.x509 Demo.intermediate] "ok" (Some Demo.staple)).
  reflexivity.
Defined.

Lemma chain_order_flag_iff_witness :
  exists self,
    CertificateInfoResult__init__ Demo.env DemoReport.server_up Demo.command
      [Demo.x509 Demo.intermediate; Demo.x509 Demo.leaf]
      [PathValidationResult__init__ Demo.mozilla "ok"] [] (Some Demo.staple) = inr self
    /\ (is_certificate_chain_order_valid self = false
        <-> exists msg,
              build_verified_certificate_chain Demo.env (get_main Demo.env)
                (map from_nassl [Demo.x509 Demo.intermediate; Demo.x509 Demo.leaf])
              = inl (InvalidCertificateChainOrderError msg)).
Proof.
  eexists. split; [vm_compute; reflexivity |].
  apply (chain_order_flag_iff Demo.env DemoReport.server_up Demo.command
           [Demo.x509 Demo.intermediate; Demo.x509 Demo.leaf]
           [PathValidationResult__init__ Demo.mozilla "ok"] [] (Some Demo.staple)).
  vm_compute. reflexivity.
Defined.

Lemma verified_chain_nonempty_inv_witness :
  exists self,
    CertificateInfoResult__init__ Demo.env DemoReport.server_up Demo.command
      [Demo.x509 Demo.leaf; Demo.x509 Demo.intermediate]
      [PathValidationResult__init__ Demo.mozilla "ok"] [] (Some Demo.staple) = inr self
    /\ verified_certificate_chain self <> []
    /\ find_main_store_verdict Demo.env (get_main Demo.env)
         [PathValidationResult__init__ Demo.mozilla "ok"] = true
    /\ build_verified_certificate_chain Demo.env (get_main Demo.env)
         (map from_nassl [Demo.x509 Demo.leaf; Demo.x509 Demo.intermediate])
       = inr (verified_certificate_chain self)
    /\ is_certificate_chain_order_valid self = true.
Proof.
  eexists. split; [vm_compute; reflexivity |]. split; [discriminate |].
  apply (verified_chain_nonempty_inv Demo.env DemoReport.server_up Demo.command
           [Demo.x509 Demo.leaf; Demo.x509 Demo.intermediate]
           [PathValidationResult__init__ Demo.mozilla "ok"] [] (Some Demo.staple)).
  - vm_compute. reflexivity.
  - discriminate.
Defined.

Lemma process_task_raises_when_all_fail_witness :
  process_task Demo.env DemoReport.server_down Demo.command
  = inl (RuntimeError "Could not connect to the server; last error: Connection refused").
Proof.
  apply (process_task_raises_when_all_fail Demo.env (fun jobs => Permutation_refl jobs)
           DemoReport.server_down Demo.command).
  intros store Hin. apply list_elem_of_In in Hin. simpl in Hin.
  destruct Hin as [<- | [<- | []]]; eexists; reflexivity.
Defined.

Lemma process_task_outcomes_match_stores_witness :
  exists self,
    process_task Demo.env DemoReport.server_partly_down Demo.command = inr self
    /\ (map trust_store (path_validation_result_list self)
          ++ map error_trust_store (path_validation_error_list self))%list
       ≡ₚ [Demo.mozilla; Demo.microsoft].
Proof.
  eexists. split; [vm_compute; reflexivity |].
  apply (process_task_outcomes_match_stores Demo.env (fun jobs => Permutation_refl jobs)
           DemoReport.server_partly_down Demo.command).
  vm_compute. reflexivity.
Defined.

Lemma process_task_no_stores_witness :
  process_task DemoReport.env_no_store DemoReport.server_up Demo.command
  = inl (RuntimeError "Could not connect to the server; last error: None").
Proof.
  apply (process_task_no_stores DemoReport.env_no_store).
  - intros jobs. reflexivity.
  - reflexivity.
Defined.

Lemma process_task_some_success_witness :
  exists last_store chain verify_str ocsp,
    last (thread_pool_get_result
            (finished_jobs Demo.env DemoReport.server_partly_down Demo.command))
    = Some (last_store, (chain, verify_str, ocsp))
    /\ process_task Demo.env DemoReport.server_partly_down Demo.command
       = CertificateInfoResult__init__ Demo.env DemoReport.server_partly_down Demo.command
           chain
           (map (fun job => PathValidationResult__init__ (fst job) (snd (fst (snd job))))
                (thread_pool_get_result
                   (finished_jobs Demo.env DemoReport.server_partly_down Demo.command)))
           (map (fun job => PathValidationError__init__ (fst job) (snd job))
                (thread_pool_get_error
                   (finished_jobs Demo.env DemoReport.server_partly_down Demo.command)))
           ocsp.
Proof.
  apply (process_task_some_success Demo.env (fun jobs => Permutation_refl jobs)
           DemoReport.server_partly_down Demo.command Demo.mozilla
           ([Demo.x509 Demo.leaf; Demo.x509 Demo.intermediate], "ok", Some Demo.staple)).
  - apply list_elem_of_In. simpl. auto.
  - reflexivity.
Defined.

Lemma process_task_result_has_path_result_witness :
  exists self,
    process_task Demo.env DemoReport.server_partly_down Demo.command = inr self
    /\ path_validation_result_list self <> []
    /\ (exists lines,
          as_text_path_errors self = inr lines
          /\ length lines = length (path_validation_error_list self))
    /\ (exists elements,
          as_xml_path_errors self = inr elements
          /\ length elements = length (path_validation_error_list self)).
Proof.
  eexists. split; [vm_compute; reflexivity |].
  apply (process_task_result_has_path_result Demo.env (fun jobs => Permutation_refl jobs)
           DemoReport.server_partly_down Demo.command).
  vm_compute. reflexivity.
Defined.

Lemma path_error_lines_repeat_last_result_label_witness :
  exists self lines,
    process_task Demo.env DemoReport.server_partly_down Demo.command = inr self
    /\ as_text_path_errors self = inr lines
    /\ map error_trust_store (path_validation_error_list self) = [Demo.microsoft]
    /\ length lines = length (path_validation_error_list self)
    /\ forall line,
         line ∈ lines ->
         exists label error_txt result_txt,
           line = format_field label error_txt
           /\ last (as_text_path_results Demo.env self)
              = Some (format_field label result_txt).
Proof.
  assert (exists self,
            process_task Demo.env DemoReport.server_partly_down Demo.command = inr self)
    as [self Hself] by (vm_compute; eexists; reflexivity).
  assert (exists lines, as_text_path_errors self = inr lines) as [lines Hlines].
  { vm_compute in Hself. injection Hself as <-. vm_compute. eexists. reflexivity. }
  exists self, lines. split; [exact Hself |]. split; [exact Hlines |].
  split; [vm_compute in Hself; injection Hself as <-; reflexivity |].
  exact (path_error_lines_repeat_last_result_label Demo.env self lines Hlines).
Defined.

Lemma hostname_validation_reports_witness :
  exists self,
    CertificateInfoResult__init__ Demo.env DemoReport.server_up Demo.command
      [DemoReport.x509_odd_hostname_code]
      [PathValidationResult__init__ Demo.mozilla "ok"] [] (Some Demo.staple) = inr self
    /\ as_text_hostname_lines DemoReport.X509_NAME_MISMATCH DemoReport.X509_NAME_MATCHES_SAN
         DemoReport.X509_NAME_MATCHES_CN self
       = inl (OtherException "KeyError" "7")
    /\ element_attrib (host_validation_xml DemoReport.X509_NAME_MISMATCH self)
         !! "certificateMatchesServerHostname" = Some "True".
Proof.
  assert (exists self,
            CertificateInfoResult__init__ Demo.env DemoReport.server_up Demo.command
              [DemoReport.x509_odd_hostname_code]
              [PathValidationResult__init__ Demo.mozilla "ok"] [] (Some Demo.staple)
            = inr self /\ hostname_validation_result self = 7%Z)
    as (self & Hself & Hcode) by (vm_compute; eexists; split; reflexivity).
  exists self. split; [exact Hself |].
  pose proof (proj2 (hostname_validation_reports DemoReport.X509_NAME_MISMATCH
                       DemoReport.X509_NAME_MATCHES_SAN DemoReport.X509_NAME_MATCHES_CN self))
    as H.
  rewrite Hcode in H. apply H; discriminate.
Defined.

Lemma untrusted_report_lines_witness :
  exists self,
    CertificateInfoResult__init__ Demo.env DemoReport.server_up Demo.command
      [Demo.x509 Demo.leaf; Demo.x509 Demo.intermediate]
      [PathValidationResult__init__ Demo.mozilla "certificate has expired"] []
      (Some Demo.staple) = inr self
    /\ as_text_chain_lines self
       = [format_field "Received Chain:" "www.example.com --> Example CA";
          format_field "Verified Chain w/ Mozilla Store:" NO_VERIFIED_CHAIN_ERROR_TXT;
          format_field "Received Chain Contains Anchor:" NO_VERIFIED_CHAIN_ERROR_TXT;
          format_field "Received Chain Order:" "OK - Order is valid";
          format_field "Verified Chain contains SHA1:" NO_VERIFIED_CHAIN_ERROR_TXT]
    /\ cert_chain_attrs self !! "containsAnchorCertificate" = None.
Proof.
  eexists. split; [vm_compute; reflexivity |].
  apply (untrusted_report_lines Demo.env DemoReport.server_up Demo.command
           [Demo.x509 Demo.leaf; Demo.x509 Demo.intermediate]
           [PathValidationResult__init__ Demo.mozilla "certificate has expired"] []
           (Some Demo.staple)).
  - vm_compute. reflexivity.
  - reflexivity.
Defined.

Lemma anchor_reported_iff_sent_witness :
  exists self,
    CertificateInfoResult__init__ Demo.env DemoReport.server_up Demo.command
      [Demo.x509 Demo.leaf; Demo.x509 Demo.intermediate; Demo.x509 Demo.root]
      [PathValidationResult__init__ Demo.mozilla "ok"] [] (Some Demo.staple) = inr self
    /\ cert_chain_attrs self !! "containsAnchorCertificate" = Some "True"
    /\ ((cert_chain_attrs self !! "containsAnchorCertificate" = Some "True"
         <-> exists anchor cert,
               last (verified_certificate_chain self) = Some anchor
               /\ cert ∈ map from_nassl
                    [Demo.x509 Demo.leaf; Demo.x509 Demo.intermediate; Demo.x509 Demo.root]
               /\ Certificate_eq Demo.env anchor cert = true)
        /\ (as_text_chain_lines self !! 2%nat
            = Some (format_field "Received Chain Contains Anchor:"
                      "WARNING - Received certificate chain contains the anchor certificate")
            <-> exists anchor cert,
                  last (verified_certificate_chain self) = Some anchor
                  /\ cert ∈ map from_nassl
                       [Demo.x509 Demo.leaf; Demo.x509 Demo.intermediate; Demo.x509 Demo.root]
                  /\ Certificate_eq Demo.env anchor cert = true)).
Proof.
  eexists. split; [vm_compute; reflexivity |]. split; [vm_compute; reflexivity |].
  apply (anchor_reported_iff_sent Demo.env DemoReport.server_up Demo.command
           [Demo.x509 Demo.leaf; Demo.x509 Demo.intermediate; Demo.x509 Demo.root]
           [PathValidationResult__init__ Demo.mozilla "ok"] [] (Some Demo.staple)).
  vm_compute. reflexivity.
Defined.


Lemma received_chain_xml_positions_witness :
  exists self certs,
    CertificateInfoResult__init__ Demo.env DemoReport.server_up Demo.command
      [Demo.x509 Demo.leaf; Demo.x509 Demo.intermediate; Demo.x509 Demo.root]
      [PathValidationResult__init__ Demo.mozilla "ok"] [] (Some Demo.staple) = inr self
    /\ received_cert_xml_list DemoReport.decode_strip DemoReport.certificate_items self 0
         (certificate_chain self) = inr certs
    /\ length certs = 3%nat
    /\ map (fun xml => element_attrib xml !! "position") certs
       = [Some "leaf"; Some "intermediate"; Some "intermediate"].
Proof.
  assert (exists self,
            CertificateInfoResult__init__ Demo.env DemoReport.server_up Demo.command
              [Demo.x509 Demo.leaf; Demo.x509 Demo.intermediate; Demo.x509 Demo.root]
              [PathValidationResult__init__ Demo.mozilla "ok"] [] (Some Demo.staple)
            = inr self /\ length (certificate_chain self) = 3%nat)
    as (self & Hself & Hlen) by (vm_compute; eexists; split; reflexivity).
  assert (exists certs,
            received_cert_xml_list DemoReport.decode_strip DemoReport.certificate_items self 0
              (certificate_chain self) = inr certs) as [certs Hcerts].
  { vm_compute in Hself. injection Hself as <-. vm_compute. eexists. reflexivity. }
  exists self, certs. split; [exact Hself |]. split; [exact Hcerts |].
  destruct (received_chain_xml_positions DemoReport.decode_strip
              DemoReport.certificate_items self certs Hcerts) as (Hcount & Hpos).
  split; [congruence |].
  rewrite Hlen in Hcount.
  destruct certs as [| x0 [| x1 [| x2 [| x3 rest]]]]; try discriminate.
  destruct (Hpos 0%nat x0 eq_refl) as (c0 & _ & _ & _ & H0).
  destruct (Hpos 1%nat x1 eq_refl) as (c1 & _ & _ & _ & H1).
  destruct (Hpos 2%nat x2 eq_refl) as (c2 & _ & _ & _ & H2).
  simpl. rewrite H0, H1, H2. reflexivity.
Defined.

Lemma verified_chain_xml_lists_received_chain_witness :
  exists self node,
    CertificateInfoResult__init__ Demo.env DemoReport.server_up Demo.command
      [Demo.x509 Demo.leaf; Demo.x509 Demo.intermediate]
      [PathValidationResult__init__ Demo.mozilla "ok"] [] (Some Demo.staple) = inr self
    /\ verified_certificate_chain self = [Demo.leaf; Demo.intermediate; Demo.root]
    /\ path_validation_xml DemoReport.decode_strip DemoReport.certificate_items self
         (PathValidationResult__init__ Demo.mozilla "ok") = inr node
    /\ exists attrib certs,
         element_children node = [MkElement "verifiedCertificateChain" attrib None certs]
         /\ map (fun xml => element_attrib xml !! "sha1Fingerprint") certs
            = [Some "fp-leaf"; Some "fp-intermediate"].
Proof.
  assert (exists self,
            CertificateInfoResult__init__ Demo.env DemoReport.server_up Demo.command
              [Demo.x509 Demo.leaf; Demo.x509 Demo.intermediate]
              [PathValidationResult__init__ Demo.mozilla "ok"] [] (Some Demo.staple)
            = inr self
            /\ verified_certificate_chain self = [Demo.leaf; Demo.intermediate; Demo.root]
            /\ certificate_chain self = [Demo.leaf; Demo.intermediate])
    as (self & Hself & Hverified & Hchain)
    by (vm_compute; eexists; repeat split; reflexivity).
  assert (exists node,
            path_validation_xml DemoReport.decode_strip DemoReport.certificate_items self
              (PathValidationResult__init__ Demo.mozilla "ok") = inr node) as [node Hnode].
  { vm_compute in Hself. injection Hself as <-. vm_compute. eexists. reflexivity. }
  exists self, node. split; [exact Hself |]. split; [exact Hverified |].
  split; [exact Hnode |].
  destruct (verified_chain_xml_lists_received_chain DemoReport.decode_strip
              DemoReport.certificate_items self
              (PathValidationResult__init__ Demo.mozilla "ok") node Hnode)
    as (_ & [Hnone | (attrib & certs & Hchildren & _ & _ & Hfp)]).
  - exfalso. unfold path_validation_xml in Hnode. rewrite Hverified in Hnode.
    simpl in Hnode. apply bind_inr in Hnode as (certs & _ & Hnode).
    injection Hnode as <-. discriminate.
  - exists attrib, certs. split; [exact Hchildren |]. rewrite Hfp, Hchain. reflexivity.
Defined.
